(** * Redis context of the GCS: callback registry, reply routers, dispatch

    A shallow embedding of [src/ray/gcs/redis_context.cc]: the callback
    manager, the two reply callbacks handed to hiredis, and the methods of
    [RedisContext] ([Connect], [RunAsync], [SubscribeAsync]).

    Effects are explicit.  A computation is a function from a [World] (the
    callback manager singleton and the trace of observable events) to an
    [Outcome]: it returns, it terminates the process through a FATAL log, or
    it runs into undefined behaviour of C++ (an out-of-bounds read, a null
    dereference). *)

From stdpp Require Import gmap strings.
From Stdlib Require Import ZArith Lia.

Local Open Scope Z_scope.

(** ** Byte strings

    [std::string] and the [char *] buffers of hiredis are byte strings; the
    standard [string] is a list of 8-bit characters, so it is binary safe. *)

(** The C string a [char *] denotes: the bytes before the first NUL. *)
Fixpoint c_str (s : string) : string :=
  match s with
  | EmptyString => EmptyString
  | String c r => if Ascii.eqb c Ascii.zero then EmptyString else String c (c_str r)
  end.

(** [strcmp(a, b) == 0] *)
Definition strcmp_eq (a b : string) : bool := String.eqb (c_str a) (c_str b).

(** [std::string(p, n)]: the first [n] bytes at [p].  A null [p] comes with
    [n = 0] in every reply hiredis builds and yields the empty string. *)
Definition std_string (p : option string) (n : Z) : string :=
  match p with
  | Some s => String.substring 0 (Z.to_nat n) s
  | None => EmptyString
  end.

(** ** Replies of hiredis ([redisReply])

    The struct is a tagged record: [type] selects which of [integer],
    [str]/[len] and [element]/[elements] carry data; the other fields are
    zeroed by the reader ([str] and [element] are null, [len] and [elements]
    are 0).  The inductive keeps exactly the replies the reader builds. *)
#[warnings="-register-all"]
Inductive redisReply : Type :=
  | ReplyString (s : string)
  | ReplyArray (element : list redisReply)
  | ReplyInteger (integer : Z)
  | ReplyNil
  | ReplyStatus (s : string)
  | ReplyError (s : string).

Definition REDIS_REPLY_STRING : Z := 1.
Definition REDIS_REPLY_ARRAY : Z := 2.
Definition REDIS_REPLY_INTEGER : Z := 3.
Definition REDIS_REPLY_NIL : Z := 4.
Definition REDIS_REPLY_STATUS : Z := 5.
Definition REDIS_REPLY_ERROR : Z := 6.

Definition reply_type (r : redisReply) : Z :=
  match r with
  | ReplyString _ => REDIS_REPLY_STRING
  | ReplyArray _ => REDIS_REPLY_ARRAY
  | ReplyInteger _ => REDIS_REPLY_INTEGER
  | ReplyNil => REDIS_REPLY_NIL
  | ReplyStatus _ => REDIS_REPLY_STATUS
  | ReplyError _ => REDIS_REPLY_ERROR
  end.

(** [reply->str]; [None] is the null pointer. *)
Definition reply_str (r : redisReply) : option string :=
  match r with
  | ReplyString s | ReplyStatus s | ReplyError s => Some s
  | _ => None
  end.

(** [reply->len] *)
Definition reply_len (r : redisReply) : Z :=
  match r with
  | ReplyString s | ReplyStatus s | ReplyError s => Z.of_nat (String.length s)
  | _ => 0
  end.

(** [reply->element], an array of [reply->elements] pointers. *)
Definition reply_element (r : redisReply) : list redisReply :=
  match r with
  | ReplyArray l => l
  | _ => []
  end.

(** [reply->elements], a [size_t]. *)
Definition reply_elements (r : redisReply) : Z :=
  Z.of_nat (length (reply_element r)).

(** Subtraction of two [size_t] values wraps around modulo 2^64: below
    zero the result comes back from the top of the range. *)
Definition size_t_sub (a b : Z) : Z :=
  if a - b <? 0 then a - b + 2 ^ 64 else a - b.

(** [a[i]] on a C array: defined only for [0 <= i < length a]. *)
Definition array_at {A : Type} (a : list A) (i : Z) : option A :=
  if (0 <=? i) && (i <? Z.of_nat (length a)) then nth_error a (Z.to_nat i) else None.

(** ** Events, worlds and outcomes *)

Inductive Severity : Type := WARNING | ERROR | FATAL.

(** What is streamed into a log line with [<<]. *)
Inductive LogItem : Type :=
  | LStr (s : string)
  | LInt (n : Z).

(** A [char *] streamed into a log line: the C string, nothing for null. *)
Definition LCStr (p : option string) : LogItem :=
  LStr (match p with Some s => c_str s | None => EmptyString end).

(** Which hiredis connection a request goes to. *)
Inductive Connection : Type := async_context | subscribe_context.

(** Which reply callback is handed to hiredis. *)
Inductive ReplyCallback : Type := GlobalRedisCallbackFn | SubscribeRedisCallbackFn.

(** A variadic argument of [redisAsyncCommand]: an [int] for [%d], a
    pointer and a length for [%b]. *)
Inductive VarArg : Type :=
  | VInt (n : Z)
  | VBytes (p : string) (n : Z).

(** One call of [redisAsyncCommand]. *)
Record AsyncRequest : Type := mkAsyncRequest {
  req_connection : Connection;
  req_fn : ReplyCallback;
  req_privdata : Z;
  req_format : string;
  req_args : list VarArg
}.

(** Why an execution has no defined behaviour. *)
Inductive UB : Type :=
  | OutOfBounds
  | NullDereference
  | SignedOverflow.

Definition INT_MAX : Z := 2 ^ 31 - 1.
Definition INT64_MAX : Z := 2 ^ 63 - 1.

Section Model.

(** A [RedisCallback] is a [std::function<void(const std::string &)>] of the
    caller.  Its body is caller code: the model keeps the callback opaque and
    records each invocation with its argument. *)
Context {RedisCallback : Type}.

Inductive Event : Type :=
  | EvLog (sev : Severity) (msg : list LogItem)
  | EvInvoke (cb : RedisCallback) (data : string)
  | EvSleep (usec : Z)
  | EvConnect (address : string) (port : Z)
  | EvCommand (format : string)
  | EvAsyncConnect (address : string) (port : Z)
  | EvAsyncCommand (req : AsyncRequest).

(** ** RedisCallbackManager

    [callbacks_] maps an index to an owning pointer to a callback, and
    [num_callbacks] is the next index.  The container is a standard
    associative container with unique keys ([emplace], [operator[]],
    [erase]). *)
Record RedisCallbackManager : Type := mkManager {
  num_callbacks : Z;
  callbacks_ : gmap Z RedisCallback
}.

Record World : Type := mkWorld {
  manager : RedisCallbackManager;
  trace : list Event
}.

Inductive Outcome (A : Type) : Type :=
  | Returns (a : A) (w : World)
  | Fatal (w : World)
  | Undefined (why : UB).

Arguments Returns {A} a w.
Arguments Fatal {A} w.
Arguments Undefined {A} why.

Definition M (A : Type) : Type := World -> Outcome A.

Definition ret {A : Type} (a : A) : M A := fun w => Returns a w.

Definition bind {A B : Type} (m : M A) (k : A -> M B) : M B :=
  fun w =>
    match m w with
    | Returns a w' => k a w'
    | Fatal w' => Fatal w'
    | Undefined why => Undefined why
    end.

Definition undefined {A : Type} (why : UB) : M A := fun _ => Undefined why.

Definition emit (e : Event) : M unit :=
  fun w => Returns tt (mkWorld (manager w) (trace w ++ [e])).

(** Modelled from the spec: the logging macros of [ray/util/logging.h] are
    not part of the sources at hand.  [RAY_LOG(level) << ...] writes one
    line; at level FATAL the process then terminates with that diagnostic.
    [RAY_CHECK(cond) << ...] does nothing when [cond] holds and is a FATAL
    log otherwise. *)
Definition RAY_LOG (sev : Severity) (msg : list LogItem) : M unit :=
  fun w =>
    let w' := mkWorld (manager w) (trace w ++ [EvLog sev msg]) in
    match sev with
    | FATAL => Fatal w'
    | _ => Returns tt w'
    end.

(** Modelled from the spec: [RAY_CHECK], from the same header; a violated
    check is fatal. *)
Definition RAY_CHECK (cond : bool) (msg : list LogItem) : M unit :=
  if cond then ret tt else RAY_LOG FATAL msg.

(** [callbacks_.emplace(num_callbacks, ...); return num_callbacks++;]
    [emplace] leaves an existing entry alone; the increment of the
    [int64_t] has no defined result past [INT64_MAX]. *)
Definition RedisCallbackManager_add (function : RedisCallback) : M Z :=
  fun w =>
    let m := manager w in
    let index := num_callbacks m in
    let callbacks :=
      match callbacks_ m !! index with
      | Some _ => callbacks_ m
      | None => <[index := function]> (callbacks_ m)
      end in
    if index + 1 <=? INT64_MAX
    then Returns index (mkWorld (mkManager (index + 1) callbacks) (trace w))
    else Undefined SignedOverflow.

(** [return *callbacks_[callback_index];]
    There is no check for presence.  On a missing key [operator[]] inserts
    a value-initialised (null) pointer, and the dereference of that pointer
    has no defined behaviour. *)
Definition RedisCallbackManager_get (callback_index : Z) : M RedisCallback :=
  fun w =>
    match callbacks_ (manager w) !! callback_index with
    | Some cb => Returns cb w
    | None => Undefined NullDereference
    end.

(** [callbacks_.erase(callback_index);] *)
Definition RedisCallbackManager_remove (callback_index : Z) : M unit :=
  fun w =>
    let m := manager w in
    Returns tt (mkWorld (mkManager (num_callbacks m) (delete callback_index (callbacks_ m)))
                        (trace w)).

(** The call [callback(data)] of a registered callback. *)
Definition invoke (cb : RedisCallback) (data : string) : M unit :=
  emit (EvInvoke cb data).

(** [a[i]] inside a computation. *)
Definition index {A : Type} (a : list A) (i : Z) : M A :=
  match array_at a i with
  | Some x => ret x
  | None => undefined OutOfBounds
  end.

(** Reading through a [char *] (as [strcmp] does). *)
Definition deref {A : Type} (p : option A) : M A :=
  match p with
  | Some x => ret x
  | None => undefined NullDereference
  end.

Definition string_empty (s : string) : bool :=
  match s with
  | EmptyString => true
  | String _ _ => false
  end.

End Model.

Arguments Event : clear implicits.
Arguments RedisCallbackManager : clear implicits.
Arguments World : clear implicits.
Arguments Outcome : clear implicits.
Arguments M : clear implicits.
Arguments Returns {RedisCallback A} a w.
Arguments Fatal {RedisCallback A} w.
Arguments Undefined {RedisCallback A} why.

Declare Scope redis_scope.
Delimit Scope redis_scope with redis.
Notation "x <- m ;; k" := (bind m (fun x => k))
  (at level 100, m at next level, right associativity) : redis_scope.
Notation "m ;; k" := (bind m (fun _ => k))
  (at level 100, right associativity) : redis_scope.
Local Open Scope redis_scope.

Section Routers.

Context {RedisCallback : Type}.

Local Abbreviation M := (M RedisCallback).

(** ** The reply callbacks

    [r] is the reply pointer ([None] is null) and [privdata] carries the
    callback index; the connection argument [c] is not used. *)

Definition GlobalRedisCallback (r : option redisReply) (privdata : Z) : M unit :=
  match r with
  | None => ret tt
  | Some reply =>
    let callback_index := privdata in
    data <-
      (if reply_type reply =? REDIS_REPLY_NIL then ret EmptyString
       else if reply_type reply =? REDIS_REPLY_STRING then
         ret (std_string (reply_str reply) (reply_len reply))
       else if reply_type reply =? REDIS_REPLY_ARRAY then
         reply' <- index (reply_element reply) (size_t_sub (reply_elements reply) 1) ;;
         ret (std_string (reply_str reply') (reply_len reply'))
       else if reply_type reply =? REDIS_REPLY_STATUS then ret EmptyString
       else if reply_type reply =? REDIS_REPLY_ERROR then
         RAY_LOG ERROR [LStr "Redis error "; LCStr (reply_str reply)] ;;
         ret EmptyString
       else
         RAY_LOG FATAL [LStr "Fatal redis error of type "; LInt (reply_type reply);
                        LStr " and with string "; LCStr (reply_str reply)] ;;
         ret EmptyString) ;;
    callback <- RedisCallbackManager_get callback_index ;;
    invoke callback data ;;
    RedisCallbackManager_remove callback_index
  end.

Definition SubscribeRedisCallback (r : option redisReply) (privdata : Z) : M unit :=
  match r with
  | None => ret tt
  | Some reply =>
    let callback_index := privdata in
    if reply_type reply =? REDIS_REPLY_ARRAY then
      message_type <- index (reply_element reply) 0 ;;
      message_type_str <- deref (reply_str message_type) ;;
      data <-
        (if strcmp_eq message_type_str "subscribe" then ret EmptyString
         else if strcmp_eq message_type_str "message" then
           message <- index (reply_element reply) (size_t_sub (reply_elements reply) 1) ;;
           let data := std_string (reply_str message) (reply_len message) in
           RAY_CHECK (negb (string_empty data))
                     [LStr "Empty message received on subscribe channel"] ;;
           ret data
         else
           RAY_LOG FATAL [LStr "Fatal redis error during subscribe";
                          LCStr (reply_str message_type)] ;;
           ret EmptyString) ;;
      callback <- RedisCallbackManager_get callback_index ;;
      invoke callback data
    else if reply_type reply =? REDIS_REPLY_ERROR then
      RAY_LOG ERROR [LStr "Redis error "; LCStr (reply_str reply)]
    else
      RAY_LOG FATAL [LStr "Fatal redis error of type "; LInt (reply_type reply);
                     LStr " and with string "; LCStr (reply_str reply)]
  end.

End Routers.

(** ** RedisContext *)

Inductive Status : Type :=
  | OK
  | RedisError (msg : string).

(** The fields of the hiredis contexts the code reads. *)
Record redisContext : Type := mkRedisContext {
  err : Z;
  errstr : string
}.

Record redisAsyncContext : Type := mkRedisAsyncContext {
  async_err : Z;
  async_errstr : string
}.

(** The three connections of a [RedisContext]; [None] is the null pointer. *)
Record RedisContext : Type := mkRedisContextObj {
  context_ : option redisContext;
  async_context_ : option redisAsyncContext;
  subscribe_context_ : option redisAsyncContext
}.

Definition REDIS_ERR : Z := -1.
Definition REDIS_OK : Z := 0.

(** [context_ == nullptr || context_->err] *)
Definition connect_failed (c : option redisContext) : bool :=
  match c with
  | None => true
  | Some c => negb (err c =? 0)
  end.

Definition async_connect_failed (c : option redisAsyncContext) : bool :=
  match c with
  | None => true
  | Some c => negb (async_err c =? 0)
  end.

Section Context_.

Context {RedisCallback : Type}.

Local Abbreviation M := (M RedisCallback).

(** The configuration ([RayConfig::instance()], from [state/ray_config.h]). *)
Variable redis_db_connect_retries : Z.
Variable redis_db_connect_wait_milliseconds : Z.

(** The flatbuffers constant [TablePubsub_NO_PUBLISH]. *)
Variable TablePubsub_NO_PUBLISH : Z.

(** [UniqueID::is_nil()], on the bytes of the identifier ([ray/id.h]). *)
Variable is_nil : string -> bool.

(** The environment, that is hiredis and the server behind it:
    the result of the [n]-th call of [redisConnect] (counted from 0), the
    reply to the blocking configuration command, the result of the [n]-th
    call of [redisAsyncConnect], and for a call of [redisAsyncCommand] its
    status together with the error text it leaves in the context. *)
Variable redisConnect : nat -> option redisContext.
Variable redisCommand : option redisReply.
Variable redisAsyncConnect : nat -> option redisAsyncContext.
Variable redisAsyncCommand_result : AsyncRequest -> Z * string.

(** [usleep] takes a [useconds_t], an unsigned 32-bit number. *)
Definition usleep (usec : Z) : M unit := emit (EvSleep (usec mod 2 ^ 32)).

(** The retry loop of [Connect].  [calls] counts the calls of
    [redisConnect] made so far; [context] is the current [context_].  The
    loop is bounded by [fuel]; [None] means the bound was too small. *)
Fixpoint Connect_loop (fuel : nat) (address : string) (port : Z)
    (connection_attempts : Z) (calls : nat) (context : option redisContext)
    (w : World RedisCallback) : option (Outcome RedisCallback (option redisContext)) :=
  if connect_failed context then
    if connection_attempts >=? redis_db_connect_retries then
      Some ((match context with
             | None => RAY_LOG FATAL [LStr "Could not allocate redis context."]
             | Some _ => ret tt
             end ;;
             c <- deref context ;;
             (if negb (err c =? 0) then
                RAY_LOG FATAL [LStr "Could not establish connection to redis ";
                               LStr address; LStr ":"; LInt port]
              else ret tt) ;;
             ret context) w)
    else
      match fuel with
      | O => None
      | S fuel' =>
        match (RAY_LOG WARNING [LStr "Failed to connect to Redis, retrying."] ;;
               usleep (redis_db_connect_wait_milliseconds * 1000) ;;
               emit (EvConnect address port) ;;
               if connection_attempts + 1 <=? INT_MAX then ret tt
               else undefined SignedOverflow) w with
        | Returns _ w' =>
            Connect_loop fuel' address port (connection_attempts + 1) (S calls)
                         (redisConnect calls) w'
        | Fatal w' => Some (Fatal w')
        | Undefined why => Some (Undefined why)
        end
      end
  else Some (Returns context w).

(** What follows the loop in [Connect]; the reply of the configuration
    command is freed on the way, which nothing observes.  On the early
    return the two asynchronous contexts of [this] are left as they were. *)
Definition Connect_setup (this : RedisContext) (address : string) (port : Z)
    (context : option redisContext) : M (Status * RedisContext) :=
  c <- deref context ;;
  emit (EvCommand "CONFIG SET notify-keyspace-events Kl") ;;
  let reply := redisCommand in
  if match reply with
     | None => true
     | Some reply => reply_type reply =? REDIS_REPLY_ERROR
     end
  then ret (RedisError (errstr c),
            mkRedisContextObj context (async_context_ this) (subscribe_context_ this))
  else
    emit (EvAsyncConnect address port) ;;
    let async := redisAsyncConnect 0%nat in
    (if async_connect_failed async then
       RAY_LOG FATAL [LStr "Could not establish connection to redis ";
                      LStr address; LStr ":"; LInt port]
     else ret tt) ;;
    emit (EvAsyncConnect address port) ;;
    let subscribe := redisAsyncConnect 1%nat in
    (if async_connect_failed subscribe then
       RAY_LOG FATAL [LStr "Could not establish subscribe connection to redis ";
                      LStr address; LStr ":"; LInt port]
     else ret tt) ;;
    ret (OK, mkRedisContextObj context async subscribe).

(** [RedisContext::Connect].  At most [redis_db_connect_retries] retries
    follow the first attempt, so that much fuel is enough (see
    [Connect_loop_fuel]). *)
Definition RedisContext_Connect (this : RedisContext) (address : string) (port : Z)
    (w : World RedisCallback) : option (Outcome RedisCallback (Status * RedisContext)) :=
  match emit (EvConnect address port) w with
  | Returns _ w0 =>
    match Connect_loop (Z.to_nat redis_db_connect_retries) address port 0 1%nat
                       (redisConnect 0%nat) w0 with
    | Some (Returns context w1) => Some (Connect_setup this address port context w1)
    | Some (Fatal w1) => Some (Fatal w1)
    | Some (Undefined why) => Some (Undefined why)
    | None => None
    end
  | Fatal w0 => Some (Fatal w0)
  | Undefined why => Some (Undefined why)
  end.

(** [redisAsyncCommand(context, fn, privdata, format, ...)]: hiredis reads
    through [context]. *)
Definition redisAsyncCommand (conn : Connection) (context : option redisAsyncContext)
    (fn : ReplyCallback) (privdata : Z) (format : string) (args : list VarArg)
    : M (Z * string) :=
  _ <- deref context ;;
  let req := mkAsyncRequest conn fn privdata (c_str format) args in
  emit (EvAsyncCommand req) ;;
  ret (redisAsyncCommand_result req).

(** [id.size()] *)
Definition UniqueID_size (id : string) : Z := Z.of_nat (String.length id).

(** [RedisContext::RunAsync]; [data] and [length] are the payload buffer
    and its length as the caller passes them. *)
Definition RedisContext_RunAsync (this : RedisContext) (command : string) (id : string)
    (data : string) (length : Z) (pubsub_channel : Z) (callback_index : Z) : M Status :=
  if length >? 0 then
    let redis_command := command +:+ " %d %b %b" in
    r <- redisAsyncCommand async_context (async_context_ this) GlobalRedisCallbackFn
           callback_index redis_command
           [VInt pubsub_channel; VBytes id (UniqueID_size id); VBytes data length] ;;
    if fst r =? REDIS_ERR then ret (RedisError (snd r)) else ret OK
  else
    let redis_command := command +:+ " %d %b" in
    r <- redisAsyncCommand async_context (async_context_ this) GlobalRedisCallbackFn
           callback_index redis_command
           [VInt pubsub_channel; VBytes id (UniqueID_size id)] ;;
    if fst r =? REDIS_ERR then ret (RedisError (snd r)) else ret OK.

(** [RedisContext::SubscribeAsync] *)
Definition RedisContext_SubscribeAsync (this : RedisContext) (client_id : string)
    (pubsub_channel : Z) (callback_index : Z) : M Status :=
  RAY_CHECK (negb (pubsub_channel =? TablePubsub_NO_PUBLISH))
            [LStr "Client requested subscribe on a table that does not support pubsub"] ;;
  r <- (if is_nil client_id then
          let redis_command := "SUBSCRIBE %d" in
          redisAsyncCommand subscribe_context (subscribe_context_ this)
            SubscribeRedisCallbackFn callback_index redis_command
            [VInt pubsub_channel]
        else
          let redis_command := "SUBSCRIBE %d:%b" in
          redisAsyncCommand subscribe_context (subscribe_context_ this)
            SubscribeRedisCallbackFn callback_index redis_command
            [VInt pubsub_channel; VBytes client_id (UniqueID_size client_id)]) ;;
  if fst r =? REDIS_ERR then ret (RedisError (snd r)) else ret OK.

End Context_.

(** ** Observations on traces and outcomes *)

Section Observations.

Context {RedisCallback : Type}.

(** The callback invocations of a trace, oldest first. *)
Fixpoint invocations (t : list (Event RedisCallback)) : list (RedisCallback * string) :=
  match t with
  | [] => []
  | EvInvoke cb data :: t' => (cb, data) :: invocations t'
  | _ :: t' => invocations t'
  end.

(** The requests handed to [redisAsyncCommand]. *)
Fixpoint requests (t : list (Event RedisCallback)) : list AsyncRequest :=
  match t with
  | [] => []
  | EvAsyncCommand req :: t' => req :: requests t'
  | _ :: t' => requests t'
  end.

(** The sleeps, in microseconds. *)
Fixpoint sleeps (t : list (Event RedisCallback)) : list Z :=
  match t with
  | [] => []
  | EvSleep usec :: t' => usec :: sleeps t'
  | _ :: t' => sleeps t'
  end.

(** The world an execution ends in, when it has one. *)
Definition final_world {A : Type} (o : Outcome RedisCallback A) : option (World RedisCallback) :=
  match o with
  | Returns _ w => Some w
  | Fatal w => Some w
  | Undefined _ => None
  end.

Definition is_fatal {A : Type} (o : Outcome RedisCallback A) : bool :=
  match o with
  | Fatal _ => true
  | _ => false
  end.

(** A callback index is registered with a callback. *)
Definition registered (w : World RedisCallback) (callback_index : Z) (cb : RedisCallback) : Prop :=
  callbacks_ (manager w) !! callback_index = Some cb.

(** The execution returns, having invoked [cb] once, with [data], and no
    other callback. *)
Definition invoked_once_with (o : Outcome RedisCallback unit) (w : World RedisCallback)
    (cb : RedisCallback) (data : string) : Prop :=
  exists w', o = Returns tt w' /\
             invocations (trace w') = invocations (trace w) ++ [(cb, data)].

(** The execution returns with the index retired from the registry and all
    other entries as they were. *)
Definition retired (o : Outcome RedisCallback unit) (w : World RedisCallback)
    (callback_index : Z) : Prop :=
  exists w', o = Returns tt w' /\
             callbacks_ (manager w') !! callback_index = None /\
             callbacks_ (manager w') = delete callback_index (callbacks_ (manager w)).

(** The callback manager is as it was in every world an execution ends in. *)
Definition manager_unchanged {A : Type} (o : Outcome RedisCallback A)
    (w : World RedisCallback) : Prop :=
  match final_world o with
  | Some w' => manager w' = manager w
  | None => True
  end.

End Observations.

(** ** The specification's vocabulary *)

(** The five reply shapes the design calls legal. *)
Definition legal_shape (r : redisReply) : bool :=
  match r with
  | ReplyNil | ReplyString _ | ReplyArray _ | ReplyStatus _ | ReplyError _ => true
  | ReplyInteger _ => false
  end.

(** The bytes a reply carries. *)
Definition reply_bytes (r : redisReply) : string :=
  match r with
  | ReplyString s | ReplyStatus s | ReplyError s => s
  | _ => EmptyString
  end.

(** The decoded payload of the command path, in the specification's words:
    Nil and Status give the empty payload, String its exact bytes, Array the
    bytes of its last element only, Error the empty payload. *)
Definition decoded_payload (r : redisReply) : string :=
  match r with
  | ReplyNil => EmptyString
  | ReplyString s => s
  | ReplyArray l => reply_bytes (List.last l ReplyNil)
  | ReplyStatus _ => EmptyString
  | ReplyError _ => EmptyString
  | ReplyInteger _ => EmptyString
  end.

(** The log lines the command path writes while it decodes a legal reply. *)
Definition decode_log {RedisCallback : Type} (r : redisReply) : list (Event RedisCallback) :=
  match r with
  | ReplyError s => [EvLog ERROR [LStr "Redis error "; LStr (c_str s)]]
  | _ => []
  end.

(** ** Concrete scenarios *)

(** A registry holding callback 7 under index 0, and an empty trace. *)
Definition one_callback_world : World nat :=
  mkWorld (mkManager 1 {[0 := 7%nat]}) [].

(** A fresh registry. *)
Definition fresh_world : World nat :=
  mkWorld (mkManager 0 ∅) [].

(** A server that refuses the first connection, cannot be reached at the
    second (no context is allocated) and accepts from the third on. *)
Definition third_attempt_connects (n : nat) : option redisContext :=
  match n with
  | 0%nat => Some (mkRedisContext 1 "Connection refused")
  | 1%nat => None
  | _ => Some (mkRedisContext 0 EmptyString)
  end.

(** Asynchronous connections that always succeed. *)
Definition async_connects (n : nat) : option redisAsyncContext :=
  Some (mkRedisAsyncContext 0 EmptyString).

(** A context whose three connections are up. *)
Definition connected_context : RedisContext :=
  mkRedisContextObj (Some (mkRedisContext 0 EmptyString))
                    (Some (mkRedisAsyncContext 0 EmptyString))
                    (Some (mkRedisAsyncContext 0 EmptyString)).

(** hiredis accepting every request. *)
Definition accept_all (req : AsyncRequest) : Z * string := (REDIS_OK, EmptyString).

(** ** Further operations and vocabulary *)

Section Event_loop.

Context {RedisCallback : Type}.

(** The event loop hands the replies of the subscribe connection to the
    subscribe callback one at a time, in the order of their arrival. *)
Fixpoint SubscribeRedisCallback_each (replies : list redisReply) (privdata : Z)
    : M RedisCallback unit :=
  match replies with
  | [] => ret tt
  | reply :: replies' =>
      SubscribeRedisCallback (Some reply) privdata ;;
      SubscribeRedisCallback_each replies' privdata
  end.

(** [RedisContext::AttachToEventLoop].  [redisAeAttach] is the adapter of
    hiredis, given here by the status it returns for a connection; the
    second component of the result lists the connections it was called on.
    The disjunction is evaluated left to right and stops at the first
    operand that holds. *)
Definition RedisContext_AttachToEventLoop
    (redisAeAttach : Connection -> option redisAsyncContext -> Z)
    (this : RedisContext) : Status * list Connection :=
  if negb (redisAeAttach async_context (async_context_ this) =? REDIS_OK) then
    (RedisError "could not attach redis event loop", [async_context])
  else if negb (redisAeAttach subscribe_context (subscribe_context_ this) =? REDIS_OK) then
    (RedisError "could not attach redis event loop", [async_context; subscribe_context])
  else (OK, [async_context; subscribe_context]).

(** Every index in use lies below the next index to hand out. *)
Definition keys_below (m : RedisCallbackManager RedisCallback) : Prop :=
  map_Forall (fun k _ => k < num_callbacks m) (callbacks_ m).

(** A property of the world an execution ends in, when it ends in one. *)
Definition ends_in {A : Type} (P : World RedisCallback -> Prop)
    (o : Outcome RedisCallback A) : Prop :=
  match final_world o with
  | Some w' => P w'
  | None => True
  end.

(** What [k] rounds of the retry loop of [Connect] leave in the trace. *)
Fixpoint retry_events (address : string) (port : Z) (wait_milliseconds : Z) (k : nat)
    : list (Event RedisCallback) :=
  match k with
  | O => []
  | S k' =>
      EvLog WARNING [LStr "Failed to connect to Redis, retrying."]
      :: EvSleep ((wait_milliseconds * 1000) mod 2 ^ 32)
      :: EvConnect address port
      :: retry_events address port wait_milliseconds k'
  end.

End Event_loop.

(** The payload a reply of the subscribe connection delivers to the
    callback: empty for the acknowledgement of a subscription, the bytes of
    the last element for a published message that has some; nothing for any
    other reply. *)
Definition pubsub_payload (r : redisReply) : option string :=
  match r with
  | ReplyArray (first :: rest) =>
      match reply_str first with
      | Some s =>
          if String.eqb (c_str s) "subscribe" then Some EmptyString
          else if String.eqb (c_str s) "message" then
            let data := reply_bytes (List.last (first :: rest) first) in
            if string_empty data then None else Some data
          else None
      | None => None
      end
  | _ => None
  end.

(** The value of [context_] after [i] more calls of [redisConnect], when
    it is [context] now and [calls] calls have been made so far. *)
Definition context_after (redisConnect : nat -> option redisContext)
    (context : option redisContext) (calls i : nat) : option redisContext :=
  match i with
  | O => context
  | S j => redisConnect (calls + j)%nat
  end.







(** A registry holding callback 7 under index 0 and callback 9 under
    index 1, and an empty trace. *)
Definition two_callback_world : World nat :=
  mkWorld (mkManager 2 (<[1 := 9%nat]> {[0 := 7%nat]})) [].

(** No byte of the string is NUL. *)
Fixpoint no_nul (s : string) : bool :=
  match s with
  | EmptyString => true
  | String c r => negb (Ascii.eqb c Ascii.zero) && no_nul r
  end.

(** The diagnostic of [Connect] when the retries are used up. *)
Definition exhausted_message (address : string) (port : Z) (context : option redisContext)
    : list LogItem :=
  match context with
  | None => [LStr "Could not allocate redis context."]
  | Some _ => [LStr "Could not establish connection to redis "; LStr address;
               LStr ":"; LInt port]
  end.

(** A server that never accepts a blocking connection. *)
Definition never_connects (n : nat) : option redisContext :=
  Some (mkRedisContext 1 "Connection refused").

(** A server that accepts the first blocking connection. *)
Definition always_connects (n : nat) : option redisContext :=
  Some (mkRedisContext 0 EmptyString).

(** Asynchronous connections that always fail. *)
Definition async_refused (n : nat) : option redisAsyncContext :=
  Some (mkRedisAsyncContext 1 "Connection refused").

(** hiredis refusing every request. *)
Definition refuse_all (req : AsyncRequest) : Z * string := (REDIS_ERR, "Connection reset").

(** An identifier is nil when all its bytes are 255. *)
Fixpoint all_ff (id : string) : bool :=
  match id with
  | EmptyString => true
  | String c r => Ascii.eqb c (Ascii.ascii_of_nat 255) && all_ff r
  end.

(** An adapter that attaches the command connection only. *)
Definition attach_command_only (conn : Connection) (c : option redisAsyncContext) : Z :=
  match conn with
  | async_context => REDIS_OK
  | subscribe_context => REDIS_ERR
  end.

(** ** Auxiliary facts *)

(** Case analysis on the innermost scrutinee of the goal, repeated. *)
Ltac split_matches :=
  repeat match goal with
         | |- context [match ?x with _ => _ end] =>
             lazymatch x with
             | context [match _ with _ => _ end] => fail
             | _ => destruct x eqn:?
             end
         end.

Lemma substring_whole (s : string) : String.substring 0 (String.length s) s = s.
Proof.
  induction s as [|c s IH]; simpl; [reflexivity|].
  now rewrite IH.
Qed.

Lemma std_string_whole (s : string) :
  std_string (Some s) (Z.of_nat (String.length s)) = s.
Proof. unfold std_string. rewrite Nat2Z.id. apply substring_whole. Qed.

Lemma std_string_reply (r : redisReply) :
  std_string (reply_str r) (reply_len r) = reply_bytes r.
Proof. destruct r; try reflexivity; apply std_string_whole. Qed.

Lemma c_str_idempotent (s : string) : c_str (c_str s) = c_str s.
Proof.
  induction s as [|c s IH]; simpl; [reflexivity|].
  destruct (Ascii.eqb c Ascii.zero) eqn:E; simpl; [reflexivity|].
  now rewrite E, IH.
Qed.

Lemma array_at_nil {A : Type} (i : Z) : array_at (@nil A) i = None.
Proof.
  unfold array_at. destruct ((0 <=? i) && (i <? Z.of_nat (length (@nil A)))); [|reflexivity].
  now destruct (Z.to_nat i).
Qed.

Lemma array_at_first {A : Type} (x : A) (l : list A) : array_at (x :: l) 0 = Some x.
Proof.
  unfold array_at. simpl length.
  replace (0 <? Z.of_nat (S (length l))) with true by (symmetry; apply Z.ltb_lt; lia).
  reflexivity.
Qed.

Lemma nth_error_last {A : Type} (l : list A) (d : A) :
  l <> [] -> nth_error l (length l - 1) = Some (List.last l d).
Proof.
  induction l as [|x l IH]; [congruence|]. intros _.
  destruct l as [|y l]; [reflexivity|].
  specialize (IH ltac:(discriminate)).
  simpl length in *. replace (S (S (length l)) - 1)%nat with (S (S (length l) - 1)) by lia.
  exact IH.
Qed.

(** The read of the last element, [element[elements - 1]], is in bounds
    for a non-empty array and then yields its last element. *)
Lemma array_at_last {A : Type} (l : list A) (d : A) :
  l <> [] ->
  array_at l (size_t_sub (Z.of_nat (length l)) 1) = Some (List.last l d).
Proof.
  intros Hne. unfold array_at, size_t_sub.
  assert (0 < Z.of_nat (length l)) by (destruct l; [congruence | simpl length; lia]).
  replace (Z.of_nat (length l) - 1 <? 0) with false by (symmetry; apply Z.ltb_ge; lia).
  replace (0 <=? Z.of_nat (length l) - 1) with true by (symmetry; apply Z.leb_le; lia).
  replace (Z.of_nat (length l) - 1 <? Z.of_nat (length l)) with true
    by (symmetry; apply Z.ltb_lt; lia).
  simpl andb. replace (Z.to_nat (Z.of_nat (length l) - 1)) with (length l - 1)%nat by lia.
  now apply nth_error_last.
Qed.

(** That read is out of bounds exactly for the empty array. *)
Lemma array_at_last_None {A : Type} (l : list A) :
  array_at l (size_t_sub (Z.of_nat (length l)) 1) = None <-> l = [].
Proof.
  split.
  - intros H. destruct l as [|x l]; [reflexivity|].
    rewrite (array_at_last (x :: l) x) in H; discriminate.
  - intros ->. apply array_at_nil.
Qed.

Lemma array_at_first_None {A : Type} (l : list A) : array_at l 0 = None <-> l = [].
Proof.
  destruct l as [|x l]; [now rewrite array_at_nil|].
  rewrite array_at_first. split; discriminate.
Qed.

Lemma append_cons (x : Ascii.ascii) (a b : string) :
  String x a +:+ b = String x (a +:+ b).
Proof. reflexivity. Qed.


Lemma c_str_no_nul (a : string) : no_nul a = true -> c_str a = a.
Proof.
  induction a as [|x a IH]; [reflexivity|]. simpl.
  destruct (Ascii.eqb x Ascii.zero); [discriminate|]. simpl. intros H. now rewrite IH.
Qed.

Lemma no_nul_append (a b : string) :
  no_nul a = true -> no_nul b = true -> no_nul (a +:+ b) = true.
Proof.
  induction a as [|x a IH]; [now intros|]. rewrite append_cons. simpl.
  destruct (Ascii.eqb x Ascii.zero); [discriminate|]. simpl. exact IH.
Qed.



Section Trace_facts.

Context {RedisCallback : Type}.
Implicit Types t : list (Event RedisCallback).

Lemma invocations_app t1 t2 : invocations (t1 ++ t2) = invocations t1 ++ invocations t2.
Proof.
  induction t1 as [|e t1 IH]; [reflexivity|].
  destruct e; simpl; rewrite IH; reflexivity.
Qed.

Lemma requests_app t1 t2 : requests (t1 ++ t2) = requests t1 ++ requests t2.
Proof.
  induction t1 as [|e t1 IH]; [reflexivity|].
  destruct e; simpl; rewrite IH; reflexivity.
Qed.

Lemma sleeps_app t1 t2 : sleeps (t1 ++ t2) = sleeps t1 ++ sleeps t2.
Proof.
  induction t1 as [|e t1 IH]; [reflexivity|].
  destruct e; simpl; rewrite IH; reflexivity.
Qed.

End Trace_facts.

(** ** The reply callbacks *)

Section Router_facts.

Context {RedisCallback : Type}.
Implicit Types (w : World RedisCallback) (cb : RedisCallback) (reply : redisReply).

(** Registering callback 7 in a fresh registry yields index 0. *)
Example add_to_fresh_world :
  RedisCallbackManager_add 7%nat fresh_world = Returns 0 one_callback_world.
Proof. reflexivity. Qed.

(** Looking up, calling and retiring a registered callback. *)
Lemma deliver_and_remove w callback_index cb data :
  registered w callback_index cb ->
  (callback <- RedisCallbackManager_get callback_index ;;
   invoke callback data ;;
   RedisCallbackManager_remove callback_index) w =
  Returns tt (mkWorld (mkManager (num_callbacks (manager w))
                                 (delete callback_index (callbacks_ (manager w))))
                      (trace w ++ [EvInvoke cb data])).
Proof.
  unfold registered. intros Hreg.
  unfold bind, RedisCallbackManager_get. rewrite Hreg.
  reflexivity.
Qed.

(** Looking up and calling a registered callback, as the subscribe path
    does. *)
Lemma deliver_and_keep w callback_index cb data :
  registered w callback_index cb ->
  (callback <- RedisCallbackManager_get callback_index ;;
   invoke callback data) w =
  Returns tt (mkWorld (manager w) (trace w ++ [EvInvoke cb data])).
Proof.
  unfold registered. intros Hreg.
  unfold bind, RedisCallbackManager_get. rewrite Hreg.
  reflexivity.
Qed.

(** The command path on a legal reply, a non-empty one when it is an
    array, with a registered index. *)
Lemma GlobalRedisCallback_legal reply callback_index cb w :
  legal_shape reply = true ->
  reply <> ReplyArray [] ->
  registered w callback_index cb ->
  GlobalRedisCallback (Some reply) callback_index w =
  Returns tt (mkWorld (mkManager (num_callbacks (manager w))
                                 (delete callback_index (callbacks_ (manager w))))
                      (trace w ++ decode_log reply ++ [EvInvoke cb (decoded_payload reply)])).
Proof.
  intros Hlegal Hne Hreg.
  destruct reply as [s|l|n| |s|s]; try discriminate Hlegal.
  - unfold GlobalRedisCallback. cbn -[std_string].
    rewrite std_string_whole.
    apply (deliver_and_remove w callback_index cb s Hreg).
  - assert (Hl : l <> []) by congruence.
    unfold GlobalRedisCallback. cbn -[std_string array_at size_t_sub].
    unfold bind at 1. unfold bind at 1. unfold index, reply_elements. cbn [reply_element].
    rewrite (array_at_last l ReplyNil Hl). unfold ret at 1.
    rewrite std_string_reply. unfold ret at 1.
    apply (deliver_and_remove w callback_index cb _ Hreg).
  - apply (deliver_and_remove w callback_index cb EmptyString Hreg).
  - apply (deliver_and_remove w callback_index cb EmptyString Hreg).
  - unfold GlobalRedisCallback. cbn.
    rewrite (deliver_and_remove _ callback_index cb EmptyString) by exact Hreg.
    cbn. now rewrite <- app_assoc.
Qed.

(** C1, as amended.  For every non-null reply of one of the five legal
    shapes that is not an empty Array, delivered to the command-path router
    with a registered index, the router returns having invoked the
    registered callback exactly once, with the decoded payload, and the
    index is absent from the registry afterwards, all other entries being
    kept; this includes Error replies. *)
Theorem GlobalRedisCallback_single_shot reply callback_index cb w :
  legal_shape reply = true ->
  reply <> ReplyArray [] ->
  registered w callback_index cb ->
  invoked_once_with (GlobalRedisCallback (Some reply) callback_index w) w cb
                    (decoded_payload reply) /\
  retired (GlobalRedisCallback (Some reply) callback_index w) w callback_index.
Proof.
  intros Hlegal Hne Hreg.
  rewrite (GlobalRedisCallback_legal reply callback_index cb w Hlegal Hne Hreg).
  split.
  - eexists. split; [reflexivity|]. cbn [trace].
    rewrite !invocations_app.
    replace (invocations (decode_log (RedisCallback := RedisCallback) reply)) with
      (@nil (RedisCallback * string)) by (destruct reply; reflexivity).
    reflexivity.
  - eexists. split; [reflexivity|]. cbn [manager callbacks_].
    split; [apply lookup_delete_eq | reflexivity].
Qed.

(** C2.  On an Error reply the command path writes an ERROR log line and
    then calls the registered callback with the empty payload (and retires
    it); the subscribe path writes the same log line and calls nothing. *)
Theorem error_reply_asymmetry (msg : string) callback_index cb w :
  registered w callback_index cb ->
  GlobalRedisCallback (Some (ReplyError msg)) callback_index w =
    Returns tt (mkWorld (mkManager (num_callbacks (manager w))
                                   (delete callback_index (callbacks_ (manager w))))
                        (trace w ++ [EvLog ERROR [LStr "Redis error "; LStr (c_str msg)];
                                     EvInvoke cb EmptyString])) /\
  SubscribeRedisCallback (Some (ReplyError msg)) callback_index w =
    Returns tt (mkWorld (manager w)
                        (trace w ++ [EvLog ERROR [LStr "Redis error "; LStr (c_str msg)]])).
Proof.
  intros Hreg. split.
  - now rewrite (GlobalRedisCallback_legal (ReplyError msg) callback_index cb w).
  - reflexivity.
Qed.

(** C3.  With a registered index the command path calls the callback with
    exactly the bytes [P] of a String reply, with the bytes of the last
    element only of an Array reply, and with the empty payload for Nil and
    for Status. *)
Theorem GlobalRedisCallback_decodes (P status : string) (es : list redisReply)
    (en : redisReply) callback_index cb w :
  registered w callback_index cb ->
  invoked_once_with (GlobalRedisCallback (Some (ReplyString P)) callback_index w) w cb P /\
  invoked_once_with (GlobalRedisCallback (Some (ReplyArray (es ++ [en]))) callback_index w)
                    w cb (reply_bytes en) /\
  invoked_once_with (GlobalRedisCallback (Some ReplyNil) callback_index w) w cb EmptyString /\
  invoked_once_with (GlobalRedisCallback (Some (ReplyStatus status)) callback_index w)
                    w cb EmptyString.
Proof.
  intros Hreg.
  assert (Hne : ReplyArray (es ++ [en]) <> ReplyArray []).
  { intros [= H]. now destruct es. }
  repeat split;
    match goal with
    | |- invoked_once_with (GlobalRedisCallback (Some ?r) _ _) _ _ _ =>
        rewrite (GlobalRedisCallback_legal r callback_index cb w eq_refl) by (exact Hreg || easy);
        eexists; (split; [reflexivity|]); cbn [trace decode_log decoded_payload];
        rewrite ?List.last_last, !invocations_app; reflexivity
    end.
Qed.

(** C4, as amended.  For every index absent from the registry, [get] makes
    no check and writes no diagnostic: it neither returns a callback nor
    takes the fatal path, its behaviour is undefined (the dereference of the
    null pointer that indexing the map has just inserted). *)
Theorem RedisCallbackManager_get_absent callback_index w :
  callbacks_ (manager w) !! callback_index = None ->
  RedisCallbackManager_get callback_index w = Undefined NullDereference.
Proof.
  intros Habsent. unfold RedisCallbackManager_get. now rewrite Habsent.
Qed.

(** C5.  An Array reply whose first element is the string "subscribe"
    makes the subscribe path call the registered callback with the empty
    payload and leave the registry as it was; and whatever the reply, the
    subscribe path leaves the callback manager unchanged in every world it
    ends in, so it never removes an index. *)
Theorem SubscribeRedisCallback_persistent (first : redisReply) (rest : list redisReply)
    (s : string) callback_index cb w (r : option redisReply) (privdata : Z)
    (w0 : World RedisCallback) :
  reply_str first = Some s ->
  c_str s = "subscribe" ->
  registered w callback_index cb ->
  SubscribeRedisCallback (Some (ReplyArray (first :: rest))) callback_index w =
    Returns tt (mkWorld (manager w) (trace w ++ [EvInvoke cb EmptyString])) /\
  manager_unchanged (SubscribeRedisCallback r privdata w0) w0.
Proof.
  intros Hstr Hsub Hreg. split.
  - unfold SubscribeRedisCallback. cbn [reply_type reply_element].
    change (REDIS_REPLY_ARRAY =? REDIS_REPLY_ARRAY) with true. cbv iota.
    unfold bind at 1. unfold index. rewrite array_at_first. unfold ret at 1.
    unfold bind at 1. rewrite Hstr. unfold deref, ret at 1.
    unfold strcmp_eq at 1. rewrite Hsub. cbn [c_str]. 
    change (String.eqb "subscribe" (c_str "subscribe")) with true. cbv iota.
    unfold bind at 1. unfold ret at 1.
    apply (deliver_and_keep w callback_index cb EmptyString Hreg).
  - unfold manager_unchanged, SubscribeRedisCallback.
    destruct r as [reply|]; [|reflexivity].
    destruct reply as [x|l|n| |x|x]; try reflexivity.
    cbn [reply_type reply_element].
    change (REDIS_REPLY_ARRAY =? REDIS_REPLY_ARRAY) with true. cbv iota.
    unfold final_world, bind, index, deref, RAY_CHECK, RAY_LOG, invoke, emit, ret,
      undefined, RedisCallbackManager_get.
    cbn [final_world]. split_matches; reflexivity.
Qed.

(** C6.  An Array reply whose first element is the string "message" and
    whose last element decodes to the empty byte string makes the subscribe
    path terminate through the FATAL check; no callback is called. *)
Theorem SubscribeRedisCallback_empty_message_fatal (first : redisReply)
    (rest : list redisReply) (s : string) callback_index w :
  reply_str first = Some s ->
  c_str s = "message" ->
  reply_bytes (List.last (first :: rest) first) = EmptyString ->
  SubscribeRedisCallback (Some (ReplyArray (first :: rest))) callback_index w =
    Fatal (mkWorld (manager w)
                   (trace w ++ [EvLog FATAL [LStr "Empty message received on subscribe channel"]])).
Proof.
  intros Hstr Hmsg Hempty.
  unfold SubscribeRedisCallback. cbn [reply_type reply_element].
  change (REDIS_REPLY_ARRAY =? REDIS_REPLY_ARRAY) with true. cbv iota.
  unfold bind at 1. unfold index at 1. rewrite array_at_first. unfold ret at 1.
  unfold bind at 1. rewrite Hstr. unfold deref, ret at 1.
  unfold strcmp_eq. rewrite Hmsg.
  change (String.eqb "message" (c_str "subscribe")) with false.
  change (String.eqb "message" (c_str "message")) with true. cbv iota.
  unfold reply_elements. cbn [reply_element].
  unfold bind at 1. unfold bind at 1. unfold index.
  rewrite (array_at_last (first :: rest) first) by discriminate.
  unfold ret at 1. rewrite std_string_reply, Hempty.
  reflexivity.
Qed.

(** C10.  Neither router checks an Array reply for emptiness before it
    indexes it: the read of the last element and the read of the first
    element are in bounds exactly when the array is non-empty, and each
    router runs into an out-of-bounds read on an Array reply exactly when
    that reply is empty; on the command path this is not the fatal branch. *)
Theorem array_reads_unchecked (l : list redisReply) callback_index w :
  (array_at l (size_t_sub (reply_elements (ReplyArray l)) 1) = None <-> l = []) /\
  (array_at l 0 = None <-> l = []) /\
  (GlobalRedisCallback (Some (ReplyArray l)) callback_index w = Undefined OutOfBounds
     <-> l = []) /\
  (SubscribeRedisCallback (Some (ReplyArray l)) callback_index w = Undefined OutOfBounds
     <-> l = []) /\
  is_fatal (GlobalRedisCallback (Some (ReplyArray []) ) callback_index w) = false.
Proof.
  split; [apply array_at_last_None|].
  split; [apply array_at_first_None|].
  split; [|split; [|reflexivity]].
  - split; [|intros ->; reflexivity].
    destruct l as [|x l]; [reflexivity|]. intros H. exfalso. revert H.
    unfold GlobalRedisCallback. cbn [reply_type].
    change (REDIS_REPLY_ARRAY =? REDIS_REPLY_NIL) with false.
    change (REDIS_REPLY_ARRAY =? REDIS_REPLY_STRING) with false.
    change (REDIS_REPLY_ARRAY =? REDIS_REPLY_ARRAY) with true. cbv iota.
    unfold reply_elements. cbn [reply_element].
    unfold bind, index. rewrite (array_at_last (x :: l) x) by discriminate.
    unfold ret, RedisCallbackManager_get.
    destruct (callbacks_ (manager w) !! callback_index); discriminate.
  - split; [|intros ->; reflexivity].
    destruct l as [|x l]; [reflexivity|]. intros H. exfalso. revert H.
    unfold SubscribeRedisCallback. cbn [reply_type].
    change (REDIS_REPLY_ARRAY =? REDIS_REPLY_ARRAY) with true. cbv iota.
    unfold reply_elements. cbn [reply_element].
    unfold bind, index. rewrite array_at_first.
    rewrite (array_at_last (x :: l) x) by discriminate.
    unfold deref, RAY_CHECK, RAY_LOG, invoke, emit, ret, undefined,
      RedisCallbackManager_get.
    split_matches; discriminate.
Qed.

End Router_facts.

(** ** RedisContext *)

Section Context_facts.

Context {RedisCallback : Type}.
Implicit Types (w : World RedisCallback) (this : RedisContext).

Variable redis_db_connect_retries : Z.
Variable redis_db_connect_wait_milliseconds : Z.
Variable TablePubsub_NO_PUBLISH : Z.
Variable is_nil : string -> bool.
Variable redisConnect : nat -> option redisContext.
Variable redisCommand : option redisReply.
Variable redisAsyncConnect : nat -> option redisAsyncContext.
Variable redisAsyncCommand_result : AsyncRequest -> Z * string.

(** The retry loop ends within the retries that are left. *)
Lemma Connect_loop_fuel (fuel : nat) address port connection_attempts calls context w :
  (Z.to_nat (redis_db_connect_retries - connection_attempts) <= fuel)%nat ->
  is_Some (Connect_loop redis_db_connect_retries redis_db_connect_wait_milliseconds
                        redisConnect fuel address port connection_attempts calls context w).
Proof.
  revert connection_attempts calls context w.
  induction fuel as [|fuel IH]; intros attempts calls context w Hfuel.
  - cbn [Connect_loop]. destruct (connect_failed context); [|eauto].
    destruct (attempts >=? redis_db_connect_retries) eqn:E; [eauto|].
    rewrite Z.geb_leb in E. apply Z.leb_gt in E. lia.
  - cbn [Connect_loop]. destruct (connect_failed context); [|eauto].
    destruct (attempts >=? redis_db_connect_retries) eqn:E; [eauto|].
    rewrite Z.geb_leb in E. apply Z.leb_gt in E.
    unfold bind, RAY_LOG, usleep, emit, ret, undefined. cbn [manager trace].
    destruct (attempts + 1 <=? INT_MAX); [|eauto].
    apply IH. lia.
Qed.

(** [Connect] always produces an outcome. *)
Lemma RedisContext_Connect_total this address port w :
  is_Some (RedisContext_Connect redis_db_connect_retries redis_db_connect_wait_milliseconds
                                redisConnect redisCommand redisAsyncConnect
                                this address port w).
Proof.
  unfold RedisContext_Connect. cbn [emit].
  destruct (Connect_loop_fuel (Z.to_nat redis_db_connect_retries) address port 0 1%nat
              (redisConnect 0%nat)
              (mkWorld (manager w) (trace w ++ [EvConnect address port])))
    as [o Ho]; [lia|].
  rewrite Ho. destruct o; eauto.
Qed.

(** The steps after the loop add no sleep, and start with the
    configuration command when the context is connected. *)
Lemma Connect_setup_proceeds this address port (c : redisContext) w :
  exists w' rest,
    final_world (Connect_setup redisCommand redisAsyncConnect this address port (Some c) w)
      = Some w' /\
    trace w' = trace w ++ EvCommand "CONFIG SET notify-keyspace-events Kl" :: rest /\
    sleeps rest = [] /\
    manager w' = manager w.
Proof.
  unfold Connect_setup, bind, deref, emit, RAY_LOG, ret. cbn [manager trace].
  destruct (match redisCommand with
            | Some reply => reply_type reply =? REDIS_REPLY_ERROR
            | None => true
            end).
  - exists (mkWorld (manager w) (trace w ++ [EvCommand "CONFIG SET notify-keyspace-events Kl"])), [].
    repeat split.
  - destruct (async_connect_failed (redisAsyncConnect 0%nat));
      [|destruct (async_connect_failed (redisAsyncConnect 1%nat))];
      eexists; eexists; cbn [final_world trace manager];
      (split; [reflexivity|]); rewrite <- ?app_assoc; cbn [app];
      (split; [reflexivity|]); split; reflexivity.
Qed.

(** C7.  With 3 retries and a delay of 100 ms configured, when the first
    two blocking connection attempts fail and the third succeeds, [Connect]
    makes three attempts with a sleep of 100000 microseconds before the
    second and before the third, and then goes on to the configuration
    command: it sleeps exactly twice and does not take the fatal
    retry-exhaustion path. *)
Theorem Connect_third_attempt_succeeds this address port w :
  connect_failed (redisConnect 0%nat) = true ->
  connect_failed (redisConnect 1%nat) = true ->
  connect_failed (redisConnect 2%nat) = false ->
  exists o w' rest,
    RedisContext_Connect 3 100 redisConnect redisCommand redisAsyncConnect
                         this address port w = Some o /\
    final_world o = Some w' /\
    trace w' = trace w ++
               [EvConnect address port;
                EvLog WARNING [LStr "Failed to connect to Redis, retrying."];
                EvSleep 100000;
                EvConnect address port;
                EvLog WARNING [LStr "Failed to connect to Redis, retrying."];
                EvSleep 100000;
                EvConnect address port;
                EvCommand "CONFIG SET notify-keyspace-events Kl"] ++ rest /\
    sleeps (trace w') = sleeps (trace w) ++ [100000; 100000].
Proof.
  intros H0 H1 H2.
  destruct (redisConnect 2%nat) as [c|] eqn:Hc; [|discriminate H2].
  unfold RedisContext_Connect. cbn [emit].
  change (Z.to_nat 3) with 3%nat.
  cbn [Connect_loop]. rewrite H0. change (0 >=? 3) with false. cbv iota.
  unfold bind, RAY_LOG, usleep, emit, ret. cbn [manager trace].
  change (0 + 1 <=? INT_MAX) with true. cbv iota.
  rewrite H1. change (0 + 1 >=? 3) with false. cbv iota.
  change (0 + 1 + 1 <=? INT_MAX) with true. cbv iota.
  rewrite Hc, H2.
  change ((100 * 1000) mod 2 ^ 32) with 100000.
  match goal with
  | |- context [Connect_setup _ _ _ _ _ _ ?w1] =>
      destruct (Connect_setup_proceeds this address port c w1)
        as (w' & rest & Hfinal & Htrace & Hsleeps & _)
  end.
  eexists. exists w', rest. split; [reflexivity|]. split; [exact Hfinal|].
  cbn [trace] in Htrace. rewrite Htrace.
  repeat rewrite <- app_assoc. cbn [app]. split; [reflexivity|].
  rewrite sleeps_app. cbn [sleeps]. now rewrite Hsleeps.
Qed.

(** C8.  [SubscribeAsync] on the channel that marks pub/sub as disabled
    terminates through the FATAL check; nothing has been handed to
    [redisAsyncCommand] by then. *)
Theorem SubscribeAsync_disabled_channel_fatal this (client_id : string)
    (callback_index : Z) w :
  RedisContext_SubscribeAsync TablePubsub_NO_PUBLISH is_nil redisAsyncCommand_result
                              this client_id TablePubsub_NO_PUBLISH callback_index w =
    Fatal (mkWorld (manager w)
                   (trace w ++
                    [EvLog FATAL
                       [LStr "Client requested subscribe on a table that does not support pubsub"]])) /\
  option_map (fun w' => requests (trace w'))
             (final_world
                (RedisContext_SubscribeAsync TablePubsub_NO_PUBLISH is_nil
                   redisAsyncCommand_result this client_id TablePubsub_NO_PUBLISH
                   callback_index w)) =
    Some (requests (trace w)).
Proof.
  assert (E : RedisContext_SubscribeAsync TablePubsub_NO_PUBLISH is_nil
                redisAsyncCommand_result this client_id TablePubsub_NO_PUBLISH
                callback_index w =
              Fatal (mkWorld (manager w)
                       (trace w ++
                        [EvLog FATAL
                           [LStr "Client requested subscribe on a table that does not support pubsub"]]))).
  { unfold RedisContext_SubscribeAsync, bind, RAY_CHECK.
    rewrite Z.eqb_refl. reflexivity. }
  split; [exact E|].
  rewrite E. cbn [final_world option_map trace].
  rewrite requests_app. cbn [requests]. now rewrite app_nil_r.
Qed.


End Context_facts.

(** ** The theorems at concrete inputs *)

(** C1 as stated fails: an empty Array is one of the five legal shapes, and
    with index 0 registered the command path reads [element[elements - 1]]
    of an array without elements; it neither calls the callback nor retires
    the index. *)
Lemma GlobalRedisCallback_single_shot_counterexample :
  legal_shape (ReplyArray []) = true /\
  registered one_callback_world 0 7%nat /\
  GlobalRedisCallback (Some (ReplyArray [])) 0 one_callback_world = Undefined OutOfBounds /\
  ~ invoked_once_with (GlobalRedisCallback (Some (ReplyArray [])) 0 one_callback_world)
                      one_callback_world 7%nat (decoded_payload (ReplyArray [])) /\
  ~ retired (GlobalRedisCallback (Some (ReplyArray [])) 0 one_callback_world)
            one_callback_world 0.
Proof.
  split; [reflexivity|]. split; [reflexivity|]. split; [reflexivity|].
  split; intros (w' & H & _); discriminate H.
Qed.

(** An Error reply for the registered index 0: callback 7 is called once with
    the empty payload and index 0 is retired. *)
Lemma GlobalRedisCallback_single_shot_witness :
  invoked_once_with
    (GlobalRedisCallback (Some (ReplyError "ERR unknown command")) 0 one_callback_world)
    one_callback_world 7%nat (decoded_payload (ReplyError "ERR unknown command")) /\
  retired
    (GlobalRedisCallback (Some (ReplyError "ERR unknown command")) 0 one_callback_world)
    one_callback_world 0.
Proof.
  apply (GlobalRedisCallback_single_shot (ReplyError "ERR unknown command") 0 7%nat
           one_callback_world);
    [reflexivity | discriminate | reflexivity].
Defined.

(** The two routers on the same Error reply, index 0 registered. *)
Lemma error_reply_asymmetry_witness :
  GlobalRedisCallback (Some (ReplyError "ERR")) 0 one_callback_world =
    Returns tt (mkWorld (mkManager 1 (delete 0 {[0 := 7%nat]}))
                        ([] ++ [EvLog ERROR [LStr "Redis error "; LStr (c_str "ERR")];
                                EvInvoke 7%nat EmptyString])) /\
  SubscribeRedisCallback (Some (ReplyError "ERR")) 0 one_callback_world =
    Returns tt (mkWorld (manager one_callback_world)
                        ([] ++ [EvLog ERROR [LStr "Redis error "; LStr (c_str "ERR")]])).
Proof.
  apply (error_reply_asymmetry "ERR" 0 7%nat one_callback_world). reflexivity.
Defined.

(** String, Array, Nil and Status replies for the registered index 0. *)
Lemma GlobalRedisCallback_decodes_witness :
  invoked_once_with (GlobalRedisCallback (Some (ReplyString "hello")) 0 one_callback_world)
                    one_callback_world 7%nat "hello" /\
  invoked_once_with
    (GlobalRedisCallback (Some (ReplyArray ([ReplyString "a"] ++ [ReplyString "bc"]))) 0
                         one_callback_world)
    one_callback_world 7%nat (reply_bytes (ReplyString "bc")) /\
  invoked_once_with (GlobalRedisCallback (Some ReplyNil) 0 one_callback_world)
                    one_callback_world 7%nat EmptyString /\
  invoked_once_with (GlobalRedisCallback (Some (ReplyStatus "OK")) 0 one_callback_world)
                    one_callback_world 7%nat EmptyString.
Proof.
  apply (GlobalRedisCallback_decodes "hello" "OK" [ReplyString "a"] (ReplyString "bc")
           0 7%nat one_callback_world).
  reflexivity.
Defined.

(** C4 as stated fails: index 0 is absent from a fresh registry, and [get]
    does not take the fatal path. *)
Lemma RedisCallbackManager_get_absent_counterexample :
  callbacks_ (manager fresh_world) !! 0 = None /\
  is_fatal (RedisCallbackManager_get 0 fresh_world) = false.
Proof. split; reflexivity. Qed.

(** Index 5 is absent from the registry that holds index 0 only. *)
Lemma RedisCallbackManager_get_absent_witness :
  RedisCallbackManager_get 5 one_callback_world = Undefined NullDereference.
Proof.
  apply (RedisCallbackManager_get_absent 5 one_callback_world). reflexivity.
Defined.

(** The acknowledgement of a subscription, and a published message. *)
Lemma SubscribeRedisCallback_persistent_witness :
  SubscribeRedisCallback
    (Some (ReplyArray (ReplyString "subscribe" :: [ReplyString "3"; ReplyInteger 1])))
    0 one_callback_world =
    Returns tt (mkWorld (manager one_callback_world) ([] ++ [EvInvoke 7%nat EmptyString])) /\
  manager_unchanged
    (SubscribeRedisCallback (Some (ReplyArray [ReplyString "message"; ReplyString "3";
                                               ReplyString "payload"]))
                            0 one_callback_world)
    one_callback_world.
Proof.
  apply (SubscribeRedisCallback_persistent (ReplyString "subscribe")
           [ReplyString "3"; ReplyInteger 1] "subscribe" 0 7%nat one_callback_world);
    reflexivity.
Defined.

(** A published message whose payload is empty. *)
Lemma SubscribeRedisCallback_empty_message_fatal_witness :
  SubscribeRedisCallback
    (Some (ReplyArray (ReplyString "message" :: [ReplyString "3"; ReplyString EmptyString])))
    0 one_callback_world =
    Fatal (mkWorld (manager one_callback_world)
                   ([] ++ [EvLog FATAL [LStr "Empty message received on subscribe channel"]])).
Proof.
  apply (SubscribeRedisCallback_empty_message_fatal (ReplyString "message")
           [ReplyString "3"; ReplyString EmptyString] "message" 0 one_callback_world);
    reflexivity.
Defined.

(** Connecting to a server that accepts at the third attempt. *)
Lemma Connect_third_attempt_succeeds_witness :
  exists o w' rest,
    RedisContext_Connect 3 100 third_attempt_connects (Some (ReplyStatus "OK"))
                         async_connects (mkRedisContextObj None None None)
                         "127.0.0.1" 6379 fresh_world = Some o /\
    final_world o = Some w' /\
    trace w' = trace fresh_world ++
               [EvConnect "127.0.0.1" 6379;
                EvLog WARNING [LStr "Failed to connect to Redis, retrying."];
                EvSleep 100000;
                EvConnect "127.0.0.1" 6379;
                EvLog WARNING [LStr "Failed to connect to Redis, retrying."];
                EvSleep 100000;
                EvConnect "127.0.0.1" 6379;
                EvCommand "CONFIG SET notify-keyspace-events Kl"] ++ rest /\
    sleeps (trace w') = sleeps (trace fresh_world) ++ [100000; 100000].
Proof.
  apply (Connect_third_attempt_succeeds third_attempt_connects (Some (ReplyStatus "OK"))
           async_connects (mkRedisContextObj None None None) "127.0.0.1" 6379 fresh_world);
    reflexivity.
Defined.



(** ** The callback manager as a registry *)

Section Registry_facts.

Context {RedisCallback : Type}.
Implicit Types (w : World RedisCallback) (m : RedisCallbackManager RedisCallback)
         (f g cb : RedisCallback).

Lemma keys_below_next_free m : keys_below m -> callbacks_ m !! num_callbacks m = None.
Proof.
  intros Hk. destruct (callbacks_ m !! num_callbacks m) as [cb|] eqn:E; [|reflexivity].
  apply (map_Forall_lookup_1 _ _ _ _ Hk) in E. lia.
Qed.

(** [add] on a registry whose indices lie below the counter. *)
Lemma add_fresh f w :
  keys_below (manager w) ->
  num_callbacks (manager w) < INT64_MAX ->
  RedisCallbackManager_add f w =
  Returns (num_callbacks (manager w))
          (mkWorld (mkManager (num_callbacks (manager w) + 1)
                              (<[num_callbacks (manager w) := f]> (callbacks_ (manager w))))
                   (trace w)).
Proof.
  intros Hk Hmax. unfold RedisCallbackManager_add.
  rewrite (keys_below_next_free _ Hk).
  replace (num_callbacks (manager w) + 1 <=? INT64_MAX) with true
    by (symmetry; apply Z.leb_le; lia).
  reflexivity.
Qed.

Lemma keys_below_insert m f :
  keys_below m ->
  keys_below (mkManager (num_callbacks m + 1) (<[num_callbacks m := f]> (callbacks_ m))).
Proof.
  intros Hk. unfold keys_below. cbn [num_callbacks callbacks_].
  apply map_Forall_insert_2; [lia|].
  eapply map_Forall_impl; [exact Hk|]. cbn. intros; lia.
Qed.

Lemma keys_below_delete m i :
  keys_below m -> keys_below (mkManager (num_callbacks m) (delete i (callbacks_ m))).
Proof. intros Hk. unfold keys_below. cbn [num_callbacks callbacks_]. now apply map_Forall_delete. Qed.

Lemma keys_below_eta m : keys_below m -> keys_below (mkManager (num_callbacks m) (callbacks_ m)).
Proof. now destruct m. Qed.

(** X1.  On a registry whose indices lie below its counter, and short of
    the last representable index, [add] returns the counter as the new
    index, [get] on that index then returns the callback just added, and
    every other entry is as before. *)
Theorem add_then_get f w :
  keys_below (manager w) ->
  num_callbacks (manager w) < INT64_MAX ->
  exists w',
    RedisCallbackManager_add f w = Returns (num_callbacks (manager w)) w' /\
    RedisCallbackManager_get (num_callbacks (manager w)) w' = Returns f w' /\
    (forall j, j <> num_callbacks (manager w) ->
               callbacks_ (manager w') !! j = callbacks_ (manager w) !! j) /\
    trace w' = trace w.
Proof.
  intros Hk Hmax. rewrite (add_fresh f w Hk Hmax). eexists. split; [reflexivity|].
  split; [|split; [|reflexivity]].
  - unfold RedisCallbackManager_get. cbn [manager callbacks_].
    now rewrite lookup_insert_eq.
  - intros j Hj. cbn [manager callbacks_]. now rewrite lookup_insert_ne.
Qed.

(** X3.  Two calls of [add] in a row return consecutive indices, and each
    of the two callbacks is then retrieved under its own index. *)
Theorem add_twice_distinct f g w :
  keys_below (manager w) ->
  num_callbacks (manager w) + 1 < INT64_MAX ->
  exists w1 w2,
    RedisCallbackManager_add f w = Returns (num_callbacks (manager w)) w1 /\
    RedisCallbackManager_add g w1 = Returns (num_callbacks (manager w) + 1) w2 /\
    RedisCallbackManager_get (num_callbacks (manager w)) w2 = Returns f w2 /\
    RedisCallbackManager_get (num_callbacks (manager w) + 1) w2 = Returns g w2.
Proof.
  intros Hk Hmax. rewrite (add_fresh f w Hk) by lia.
  eexists. eexists. split; [reflexivity|].
  rewrite add_fresh;
    [|cbn [manager]; now apply keys_below_insert|cbn [manager num_callbacks]; lia].
  cbn [manager num_callbacks callbacks_ trace]. split; [reflexivity|].
  unfold RedisCallbackManager_get. cbn [manager callbacks_]. split.
  - rewrite lookup_insert_ne by lia. now rewrite lookup_insert_eq.
  - now rewrite lookup_insert_eq.
Qed.

(** X4.  [remove] on an index that is not registered is harmless: the
    registry and the trace are as before. *)
Theorem remove_absent_noop (callback_index : Z) w :
  callbacks_ (manager w) !! callback_index = None ->
  RedisCallbackManager_remove callback_index w = Returns tt w.
Proof.
  intros Habsent. unfold RedisCallbackManager_remove.
  rewrite (delete_id _ _ Habsent). destruct w as [[n cbs] t]. reflexivity.
Qed.

(** X5.  Removing the index [add] has just returned restores the entries
    of the registry, while the counter stays advanced: the index is not
    handed out again. *)
Theorem add_then_remove f w :
  keys_below (manager w) ->
  num_callbacks (manager w) < INT64_MAX ->
  exists w1,
    RedisCallbackManager_add f w = Returns (num_callbacks (manager w)) w1 /\
    RedisCallbackManager_remove (num_callbacks (manager w)) w1 =
      Returns tt (mkWorld (mkManager (num_callbacks (manager w) + 1) (callbacks_ (manager w)))
                          (trace w)).
Proof.
  intros Hk Hmax. rewrite (add_fresh f w Hk Hmax). eexists. split; [reflexivity|].
  unfold RedisCallbackManager_remove. cbn [manager num_callbacks callbacks_ trace].
  rewrite delete_insert_id by now apply keys_below_next_free.
  reflexivity.
Qed.

End Registry_facts.

(** ** More on the reply callbacks *)

Section More_router_facts.

Context {RedisCallback : Type}.
Implicit Types (w : World RedisCallback) (cb f : RedisCallback) (reply : redisReply).

(** What the command path can have done by the time it ends. *)
Lemma GlobalRedisCallback_final (r : option redisReply) (callback_index : Z) w :
  ends_in (fun w' =>
             num_callbacks (manager w') = num_callbacks (manager w) /\
             (callbacks_ (manager w') = callbacks_ (manager w) \/
              callbacks_ (manager w') = delete callback_index (callbacks_ (manager w))) /\
             (invocations (trace w') = invocations (trace w) \/
              exists cb data, registered w callback_index cb /\
                invocations (trace w') = invocations (trace w) ++ [(cb, data)]))
          (GlobalRedisCallback r callback_index w).
Proof.
  unfold ends_in, final_world, GlobalRedisCallback.
  destruct r as [reply|]; [|cbn; auto].
  unfold bind, index, deref, RAY_CHECK, RAY_LOG, invoke, emit, ret, undefined,
    RedisCallbackManager_get, RedisCallbackManager_remove, registered.
  split_matches; cbn [manager trace num_callbacks callbacks_] in *;
    try exact I; try discriminate;
    repeat match goal with
           | H : Returns _ _ = Returns _ _ |- _ => injection H as ? ?; subst
           | H : Fatal _ = Fatal _ |- _ => injection H as ?; subst
           end;
    cbn [manager trace num_callbacks callbacks_] in *;
    rewrite ?invocations_app; cbn [invocations]; rewrite ?app_nil_r;
    (split; [reflexivity|]); (split; [auto|]); eauto.
Qed.

(** What the subscribe path can have done by the time it ends. *)
Lemma SubscribeRedisCallback_final (r : option redisReply) (callback_index : Z) w :
  ends_in (fun w' =>
             manager w' = manager w /\
             (invocations (trace w') = invocations (trace w) \/
              exists cb data, registered w callback_index cb /\
                invocations (trace w') = invocations (trace w) ++ [(cb, data)]))
          (SubscribeRedisCallback r callback_index w).
Proof.
  unfold ends_in, final_world, SubscribeRedisCallback.
  destruct r as [reply|]; [|cbn; auto].
  unfold bind, index, deref, RAY_CHECK, RAY_LOG, invoke, emit, ret, undefined,
    RedisCallbackManager_get, registered.
  split_matches; cbn [manager trace num_callbacks callbacks_] in *;
    try exact I; try discriminate;
    repeat match goal with
           | H : Returns _ _ = Returns _ _ |- _ => injection H as ? ?; subst
           | H : Fatal _ = Fatal _ |- _ => injection H as ?; subst
           end;
    cbn [manager trace num_callbacks callbacks_] in *;
    rewrite ?invocations_app; cbn [invocations]; rewrite ?app_nil_r;
    (split; [reflexivity|]); eauto.
Qed.

Lemma keys_below_fields (m m' : RedisCallbackManager RedisCallback) (i : Z) :
  num_callbacks m' = num_callbacks m ->
  callbacks_ m' = callbacks_ m \/ callbacks_ m' = delete i (callbacks_ m) ->
  keys_below m -> keys_below m'.
Proof.
  unfold keys_below. intros -> [-> | ->] Hk; [exact Hk | now apply map_Forall_delete].
Qed.

(** X2.  The indices in use stay below the counter: [add], [remove] and
    both reply callbacks keep that invariant in every world they end in. *)
Theorem keys_below_kept f (callback_index : Z) (r : option redisReply) w :
  keys_below (manager w) ->
  ends_in (fun w' => keys_below (manager w')) (RedisCallbackManager_add f w) /\
  ends_in (fun w' => keys_below (manager w')) (RedisCallbackManager_remove callback_index w) /\
  ends_in (fun w' => keys_below (manager w')) (GlobalRedisCallback r callback_index w) /\
  ends_in (fun w' => keys_below (manager w')) (SubscribeRedisCallback r callback_index w).
Proof.
  intros Hk. repeat split.
  - unfold ends_in, RedisCallbackManager_add.
    rewrite (keys_below_next_free _ Hk).
    destruct (num_callbacks (manager w) + 1 <=? INT64_MAX); [|exact I].
    cbn [final_world manager]. now apply keys_below_insert.
  - unfold ends_in, RedisCallbackManager_remove. cbn [final_world manager].
    now apply keys_below_delete.
  - pose proof (GlobalRedisCallback_final r callback_index w) as H.
    unfold ends_in in *.
    destruct (final_world (GlobalRedisCallback r callback_index w)) as [w'|]; [|exact I].
    destruct H as (Hn & Hc & _). exact (keys_below_fields _ _ _ Hn Hc Hk).
  - pose proof (SubscribeRedisCallback_final r callback_index w) as H.
    unfold ends_in in *.
    destruct (final_world (SubscribeRedisCallback r callback_index w)) as [w'|]; [|exact I].
    destruct H as (-> & _). exact Hk.
Qed.

(** X6.  A command round trip: after [add], a String reply routed to the
    returned index calls the callback once with the bytes of the reply and
    leaves the entries of the registry as they were before [add]; a second
    reply for the same index then has no defined behaviour, the entry being
    gone. *)
Theorem add_reply_replay f (P P' : string) w :
  keys_below (manager w) ->
  num_callbacks (manager w) < INT64_MAX ->
  exists w1 w2,
    RedisCallbackManager_add f w = Returns (num_callbacks (manager w)) w1 /\
    GlobalRedisCallback (Some (ReplyString P)) (num_callbacks (manager w)) w1 = Returns tt w2 /\
    trace w2 = trace w ++ [EvInvoke f P] /\
    callbacks_ (manager w2) = callbacks_ (manager w) /\
    GlobalRedisCallback (Some (ReplyString P')) (num_callbacks (manager w)) w2 =
      Undefined NullDereference.
Proof.
  intros Hk Hmax. rewrite (add_fresh f w Hk Hmax). eexists. eexists.
  split; [reflexivity|].
  rewrite (GlobalRedisCallback_legal (ReplyString P) _ f) by
    (reflexivity || discriminate || (unfold registered; cbn; apply lookup_insert_eq)).
  cbn [manager num_callbacks callbacks_ trace decode_log decoded_payload app].
  rewrite delete_insert_id by now apply keys_below_next_free.
  split; [reflexivity|]. split; [reflexivity|]. split; [reflexivity|].
  unfold GlobalRedisCallback. cbn -[std_string].
  unfold bind, ret, RedisCallbackManager_get. cbn [manager callbacks_].
  now rewrite (keys_below_next_free _ Hk).
Qed.

(** X7.  The command path works on the entry of its own index only: the
    entry of every other index and the counter are as before in every world
    it ends in. *)
Theorem GlobalRedisCallback_frame (r : option redisReply) (callback_index j : Z) w :
  j <> callback_index ->
  ends_in (fun w' =>
             callbacks_ (manager w') !! j = callbacks_ (manager w) !! j /\
             num_callbacks (manager w') = num_callbacks (manager w))
          (GlobalRedisCallback r callback_index w).
Proof.
  intros Hj. pose proof (GlobalRedisCallback_final r callback_index w) as H.
  unfold ends_in in *.
  destruct (final_world (GlobalRedisCallback r callback_index w)) as [w'|]; [|exact I].
  destruct H as (Hn & [-> | ->] & _); split; try exact Hn; [reflexivity|].
  now apply lookup_delete_ne.
Qed.

(** X8.  A reply of a type outside the five (an Integer reply) ends the
    command path in the FATAL log before the registry is consulted: no
    callback is called and the registry is as before, registered index or
    not. *)
Theorem GlobalRedisCallback_other_type_fatal reply (callback_index : Z) w :
  legal_shape reply = false ->
  GlobalRedisCallback (Some reply) callback_index w =
    Fatal (mkWorld (manager w)
             (trace w ++ [EvLog FATAL [LStr "Fatal redis error of type ";
                                       LInt (reply_type reply);
                                       LStr " and with string ";
                                       LCStr (reply_str reply)]])).
Proof. destruct reply; try discriminate. reflexivity. Qed.

(** X9.  A reply of a legal shape for an index that is not registered has
    no defined behaviour on the command path: the lookup is unchecked, so
    the outcome is neither a return nor the fatal path. *)
Theorem GlobalRedisCallback_unregistered reply (callback_index : Z) w :
  legal_shape reply = true ->
  callbacks_ (manager w) !! callback_index = None ->
  exists why, GlobalRedisCallback (Some reply) callback_index w = Undefined why.
Proof.
  intros Hlegal Habsent.
  destruct reply as [s|l|n| |s|s]; try discriminate Hlegal;
    unfold GlobalRedisCallback; cbn -[std_string array_at size_t_sub];
    unfold bind, index, ret, RAY_LOG, RedisCallbackManager_get, undefined;
    cbn [manager]; try (rewrite Habsent; eauto).
  destruct (array_at _ _); [rewrite Habsent|]; eauto.
Qed.

(** X14.  Whatever the reply, a reply callback calls at most one callback,
    and that callback is the one registered under the index of the reply. *)
Theorem reply_callbacks_invoke_registered (r : option redisReply) (callback_index : Z) w :
  ends_in (fun w' =>
             invocations (trace w') = invocations (trace w) \/
             exists cb data, registered w callback_index cb /\
               invocations (trace w') = invocations (trace w) ++ [(cb, data)])
          (GlobalRedisCallback r callback_index w) /\
  ends_in (fun w' =>
             invocations (trace w') = invocations (trace w) \/
             exists cb data, registered w callback_index cb /\
               invocations (trace w') = invocations (trace w) ++ [(cb, data)])
          (SubscribeRedisCallback r callback_index w).
Proof.
  split.
  - pose proof (GlobalRedisCallback_final r callback_index w) as H.
    unfold ends_in in *.
    destruct (final_world (GlobalRedisCallback r callback_index w)); [|exact I].
    apply H.
  - pose proof (SubscribeRedisCallback_final r callback_index w) as H.
    unfold ends_in in *.
    destruct (final_world (SubscribeRedisCallback r callback_index w)); [|exact I].
    apply H.
Qed.

(** The subscribe path on a reply that delivers a payload. *)
Lemma SubscribeRedisCallback_delivers reply (p : string) (callback_index : Z) cb w :
  pubsub_payload reply = Some p ->
  registered w callback_index cb ->
  SubscribeRedisCallback (Some reply) callback_index w =
    Returns tt (mkWorld (manager w) (trace w ++ [EvInvoke cb p])).
Proof.
  intros Hp Hreg.
  destruct reply as [x|l|n| |x|x]; try discriminate Hp.
  destruct l as [|first rest]; [discriminate Hp|].
  unfold pubsub_payload in Hp.
  destruct (reply_str first) as [s|] eqn:Hstr; [|discriminate Hp].
  unfold SubscribeRedisCallback. cbn [reply_type reply_element].
  change (REDIS_REPLY_ARRAY =? REDIS_REPLY_ARRAY) with true. cbv iota.
  unfold bind at 1. unfold index at 1. rewrite array_at_first. unfold ret at 1.
  unfold bind at 1. rewrite Hstr. unfold deref, ret at 1.
  unfold strcmp_eq.
  change (c_str "subscribe") with "subscribe". change (c_str "message") with "message".
  destruct (String.eqb (c_str s) "subscribe").
  - injection Hp as <-. unfold bind at 1. unfold ret at 1.
    apply (deliver_and_keep w callback_index cb EmptyString Hreg).
  - destruct (String.eqb (c_str s) "message"); [|discriminate Hp].
    cbv zeta in Hp.
    destruct (string_empty (reply_bytes (List.last (first :: rest) first))) eqn:He;
      [discriminate Hp|]. injection Hp as <-.
    unfold reply_elements. cbn [reply_element].
    unfold bind at 1. unfold bind at 1. unfold index.
    rewrite (array_at_last (first :: rest) first) by discriminate.
    unfold ret at 1. rewrite std_string_reply, He. cbn [negb RAY_CHECK].
    unfold bind at 1. unfold ret at 1. unfold ret at 1.
    apply (deliver_and_keep w callback_index cb _ Hreg).
Qed.

(** X10.  An Array reply whose first element is the string "message" and
    whose last element carries at least one byte makes the subscribe path
    call the registered callback with exactly the bytes of the last element,
    and the registry is left as it was. *)
Theorem SubscribeRedisCallback_message (first : redisReply) (rest : list redisReply)
    (s : string) (callback_index : Z) cb w :
  reply_str first = Some s ->
  c_str s = "message" ->
  reply_bytes (List.last (first :: rest) first) <> EmptyString ->
  registered w callback_index cb ->
  SubscribeRedisCallback (Some (ReplyArray (first :: rest))) callback_index w =
    Returns tt (mkWorld (manager w)
                        (trace w ++ [EvInvoke cb (reply_bytes (List.last (first :: rest) first))])).
Proof.
  intros Hstr Hmsg Hne Hreg.
  apply SubscribeRedisCallback_delivers; [|exact Hreg].
  unfold pubsub_payload. rewrite Hstr, Hmsg.
  change (String.eqb "message" "subscribe") with false.
  change (String.eqb "message" "message") with true. cbv iota zeta.
  destruct (reply_bytes (List.last (first :: rest) first)); [congruence|reflexivity].
Qed.

(** X11.  An Array reply whose first element is a string other than
    "subscribe" and "message" ends the subscribe path in a FATAL log that
    names the string; no callback is called. *)
Theorem SubscribeRedisCallback_unknown_type_fatal (first : redisReply)
    (rest : list redisReply) (s : string) (callback_index : Z) w :
  reply_str first = Some s ->
  c_str s <> "subscribe" ->
  c_str s <> "message" ->
  SubscribeRedisCallback (Some (ReplyArray (first :: rest))) callback_index w =
    Fatal (mkWorld (manager w)
             (trace w ++ [EvLog FATAL [LStr "Fatal redis error during subscribe";
                                       LStr (c_str s)]])).
Proof.
  intros Hstr Hs Hm.
  unfold SubscribeRedisCallback. cbn [reply_type reply_element].
  change (REDIS_REPLY_ARRAY =? REDIS_REPLY_ARRAY) with true. cbv iota.
  unfold bind at 1. unfold index at 1. rewrite array_at_first. unfold ret at 1.
  unfold bind at 1. rewrite Hstr. unfold deref, ret at 1.
  unfold strcmp_eq.
  change (c_str "subscribe") with "subscribe". change (c_str "message") with "message".
  apply String.eqb_neq in Hs, Hm. rewrite Hs, Hm.
  reflexivity.
Qed.

(** X12.  A reply on the subscribe connection that is neither an Array nor
    an Error (a String, Status, Nil or Integer reply) ends the subscribe
    path in the FATAL log; no callback is called. *)
Theorem SubscribeRedisCallback_other_type_fatal reply (callback_index : Z) w :
  reply_type reply <> REDIS_REPLY_ARRAY ->
  reply_type reply <> REDIS_REPLY_ERROR ->
  SubscribeRedisCallback (Some reply) callback_index w =
    Fatal (mkWorld (manager w)
             (trace w ++ [EvLog FATAL [LStr "Fatal redis error of type ";
                                       LInt (reply_type reply);
                                       LStr " and with string ";
                                       LCStr (reply_str reply)]])).
Proof.
  intros Ha He. unfold SubscribeRedisCallback.
  apply Z.eqb_neq in Ha, He. rewrite Ha, He. reflexivity.
Qed.

(** X13.  A subscription persists: when each reply of a sequence delivers
    a payload (acknowledgements and non-empty messages), routing them in
    order calls the registered callback once per reply, with the payloads
    in the order of the replies, and the registry is as before. *)
Theorem SubscribeRedisCallback_each_delivers (replies : list redisReply)
    (payloads : list string) (callback_index : Z) cb w :
  Forall2 (fun reply p => pubsub_payload reply = Some p) replies payloads ->
  registered w callback_index cb ->
  SubscribeRedisCallback_each replies callback_index w =
    Returns tt (mkWorld (manager w) (trace w ++ map (EvInvoke cb) payloads)).
Proof.
  intros Hall. revert w.
  induction Hall as [|reply p replies payloads Hp _ IH]; intros w Hreg.
  - cbn. rewrite app_nil_r. now destruct w.
  - cbn [SubscribeRedisCallback_each]. unfold bind.
    rewrite (SubscribeRedisCallback_delivers reply p callback_index cb w Hp Hreg).
    rewrite IH by exact Hreg. cbn [manager trace map].
    now rewrite <- app_assoc.
Qed.

End More_router_facts.

(** ** More on RedisContext *)

Section More_context_facts.

Context {RedisCallback : Type}.
Implicit Types (w : World RedisCallback) (this : RedisContext).

Variable redis_db_connect_retries : Z.
Variable redis_db_connect_wait_milliseconds : Z.
Variable TablePubsub_NO_PUBLISH : Z.
Variable is_nil : string -> bool.
Variable redisConnect : nat -> option redisContext.
Variable redisCommand : option redisReply.
Variable redisAsyncConnect : nat -> option redisAsyncContext.
Variable redisAsyncCommand_result : AsyncRequest -> Z * string.

Local Abbreviation loop :=
  (Connect_loop (RedisCallback := RedisCallback) redis_db_connect_retries
                redis_db_connect_wait_milliseconds redisConnect).
Local Abbreviation Connect :=
  (RedisContext_Connect (RedisCallback := RedisCallback) redis_db_connect_retries
                        redis_db_connect_wait_milliseconds redisConnect redisCommand
                        redisAsyncConnect).
Local Abbreviation retries_trace :=
  (retry_events (RedisCallback := RedisCallback)).

Lemma context_after_step (context : option redisContext) (calls i : nat) :
  context_after redisConnect (redisConnect calls) (S calls) i =
  context_after redisConnect context calls (S i).
Proof. destruct i; cbn [context_after]; f_equal; lia. Qed.

Lemma sleeps_retry_events address port wait (k : nat) :
  sleeps (retries_trace address port wait k) = repeat ((wait * 1000) mod 2 ^ 32) k.
Proof. induction k as [|k IH]; [reflexivity|]. cbn. now rewrite IH. Qed.

(** The loop when [k] further attempts fail and the next one succeeds,
    within the retries that are left. *)
Lemma Connect_loop_retries (k : nat) :
  forall (fuel : nat) address port (attempts : Z) (calls : nat) context w,
    (k <= fuel)%nat ->
    attempts + Z.of_nat k <= redis_db_connect_retries ->
    attempts + Z.of_nat k <= INT_MAX ->
    (forall i, (i < k)%nat ->
               connect_failed (context_after redisConnect context calls i) = true) ->
    connect_failed (context_after redisConnect context calls k) = false ->
    loop fuel address port attempts calls context w =
    Some (Returns (context_after redisConnect context calls k)
                  (mkWorld (manager w)
                           (trace w ++ retries_trace address port
                                         redis_db_connect_wait_milliseconds k))).
Proof.
  induction k as [|k IH]; intros fuel address port attempts calls context w
                                 Hfuel Hret Hmax Hfail Hok.
  - cbn [context_after] in *. destruct fuel; cbn [Connect_loop]; rewrite Hok;
      cbn [retry_events]; rewrite app_nil_r; now destruct w.
  - destruct fuel as [|fuel]; [lia|]. cbn [Connect_loop].
    pose proof (Hfail 0%nat ltac:(lia)) as H0. cbn [context_after] in H0. rewrite H0.
    replace (attempts >=? redis_db_connect_retries) with false
      by (symmetry; rewrite Z.geb_leb; apply Z.leb_gt; lia).
    unfold bind, RAY_LOG, usleep, emit, ret. cbn [manager trace].
    replace (attempts + 1 <=? INT_MAX) with true by (symmetry; apply Z.leb_le; lia).
    rewrite IH; try lia.
    + rewrite (context_after_step context). cbn [manager trace retry_events].
      repeat rewrite <- app_assoc. reflexivity.
    + intros i Hi. rewrite (context_after_step context). apply Hfail. lia.
    + rewrite (context_after_step context). exact Hok.
Qed.

(** The loop when every attempt that the retries allow fails. *)
Lemma Connect_loop_exhausted (n : nat) :
  forall (fuel : nat) address port (attempts : Z) (calls : nat) context w,
    (n <= fuel)%nat ->
    Z.of_nat n = Z.max 0 (redis_db_connect_retries - attempts) ->
    attempts + Z.of_nat n <= INT_MAX ->
    (forall i, (i <= n)%nat ->
               connect_failed (context_after redisConnect context calls i) = true) ->
    loop fuel address port attempts calls context w =
    Some (Fatal (mkWorld (manager w)
                   (trace w ++ retries_trace address port
                                 redis_db_connect_wait_milliseconds n ++
                    [EvLog FATAL (exhausted_message address port
                                    (context_after redisConnect context calls n))]))).
Proof.
  induction n as [|n IH]; intros fuel address port attempts calls context w
                                 Hfuel Hn Hmax Hfail.
  - pose proof (Hfail 0%nat ltac:(lia)) as H0. cbn [context_after] in *.
    assert (E : (attempts >=? redis_db_connect_retries) = true)
      by (rewrite Z.geb_leb; apply Z.leb_le; lia).
    assert (G : (match context with
                 | None => RAY_LOG FATAL [LStr "Could not allocate redis context."]
                 | Some _ => ret tt
                 end ;;
                 c <- deref context ;;
                 (if negb (err c =? 0) then
                    RAY_LOG FATAL [LStr "Could not establish connection to redis ";
                                   LStr address; LStr ":"; LInt port]
                  else ret tt) ;;
                 ret context) w =
                Fatal (mkWorld (manager w)
                         (trace w ++ [EvLog FATAL (exhausted_message address port context)]))).
    { destruct context as [c|]; [|reflexivity].
      cbn [connect_failed] in H0. unfold bind, deref, ret. rewrite H0. reflexivity. }
    cbn [retry_events app].
    destruct fuel; cbn [Connect_loop]; rewrite H0, E, G; reflexivity.
  - destruct fuel as [|fuel]; [lia|]. cbn [Connect_loop].
    pose proof (Hfail 0%nat ltac:(lia)) as H0. cbn [context_after] in H0. rewrite H0.
    replace (attempts >=? redis_db_connect_retries) with false
      by (symmetry; rewrite Z.geb_leb; apply Z.leb_gt; lia).
    unfold bind, RAY_LOG, usleep, emit, ret. cbn [manager trace].
    replace (attempts + 1 <=? INT_MAX) with true by (symmetry; apply Z.leb_le; lia).
    rewrite IH; try lia.
    + rewrite (context_after_step context). cbn [manager trace retry_events].
      repeat rewrite <- app_assoc. reflexivity.
    + intros i Hi. rewrite (context_after_step context). apply Hfail. lia.
Qed.

(** [Connect] up to the end of its loop, when [k] attempts fail and the
    next one succeeds. *)
Lemma Connect_reaches_setup (k : nat) this address port w :
  Z.of_nat k <= redis_db_connect_retries ->
  Z.of_nat k <= INT_MAX ->
  (forall i, (i < k)%nat -> connect_failed (redisConnect i) = true) ->
  connect_failed (redisConnect k) = false ->
  Connect this address port w =
  Some (Connect_setup redisCommand redisAsyncConnect this address port (redisConnect k)
          (mkWorld (manager w)
                   (trace w ++ EvConnect address port ::
                    retries_trace address port redis_db_connect_wait_milliseconds k))).
Proof.
  intros Hret Hmax Hfail Hok. unfold RedisContext_Connect. cbn [emit].
  rewrite (Connect_loop_retries k); try lia.
  - cbn [manager trace]. rewrite <- app_assoc.
    destruct k; reflexivity.
  - intros [|i] Hi; cbn [context_after]; apply Hfail; lia.
  - destruct k; exact Hok.
Qed.

(** A loop that returns has a connected context in hand, and has left
    the registry alone. *)
Lemma Connect_loop_returns (fuel : nat) :
  forall address port (attempts : Z) (calls : nat) context w c w',
    loop fuel address port attempts calls context w = Some (Returns c w') ->
    connect_failed c = false /\ manager w' = manager w.
Proof.
  induction fuel as [|fuel IH]; intros address port attempts calls context w c w' H;
    cbn [Connect_loop] in H;
    destruct (connect_failed context) eqn:Hf;
    try (injection H as <- <-; now split).
  - destruct (attempts >=? redis_db_connect_retries); [|discriminate H].
    exfalso. destruct context as [x|]; [|discriminate H].
    unfold bind, deref, ret, RAY_LOG in H. cbn in Hf. rewrite Hf in H. discriminate H.
  - destruct (attempts >=? redis_db_connect_retries).
    + exfalso. destruct context as [x|]; [|discriminate H].
      unfold bind, deref, ret, RAY_LOG in H. cbn in Hf. rewrite Hf in H. discriminate H.
    + unfold bind, RAY_LOG, usleep, emit, ret, undefined in H. cbn [manager trace] in H.
      destruct (attempts + 1 <=? INT_MAX); [|discriminate H].
      apply IH in H. exact H.
Qed.

Lemma Connect_OK_contexts this address port w ctx w' :
  Connect this address port w = Some (Returns (OK, ctx) w') ->
  connect_failed (context_ ctx) = false /\
  async_connect_failed (async_context_ ctx) = false /\
  async_connect_failed (subscribe_context_ ctx) = false /\
  manager w' = manager w.
Proof.
  unfold RedisContext_Connect. cbn [emit]. intros H.
  destruct (loop _ _ _ _ _ _ _) as [[c w1| |]|] eqn:Hloop; try discriminate H.
  apply Connect_loop_returns in Hloop. destruct Hloop as [Hc Hm]. cbn [manager] in Hm.
  injection H as H. destruct c as [c|]; [|discriminate Hc].
  revert H. unfold Connect_setup, bind, deref, emit, RAY_LOG, ret. cbn [manager trace].
  destruct (match redisCommand with
            | Some reply => reply_type reply =? REDIS_REPLY_ERROR
            | None => true
            end); [discriminate|].
  destruct (async_connect_failed (redisAsyncConnect 0%nat)) eqn:Ha; [discriminate|].
  destruct (async_connect_failed (redisAsyncConnect 1%nat)) eqn:Hs; [discriminate|].
  intros [= <- <-]. cbn [context_ async_context_ subscribe_context_ manager].
  repeat split; assumption.
Qed.

(** The request [RunAsync] builds. *)
Lemma RunAsync_returns this (ac : redisAsyncContext) (command id data : string)
    (length pubsub_channel callback_index : Z) w :
  async_context_ this = Some ac ->
  exists req,
    req = mkAsyncRequest async_context GlobalRedisCallbackFn callback_index
            (c_str (command +:+ (if length >? 0 then " %d %b %b" else " %d %b")))
            (if length >? 0
             then [VInt pubsub_channel; VBytes id (UniqueID_size id); VBytes data length]
             else [VInt pubsub_channel; VBytes id (UniqueID_size id)]) /\
    RedisContext_RunAsync redisAsyncCommand_result this command id data length
                          pubsub_channel callback_index w =
    Returns (if fst (redisAsyncCommand_result req) =? REDIS_ERR
             then RedisError (snd (redisAsyncCommand_result req)) else OK)
            (mkWorld (manager w) (trace w ++ [EvAsyncCommand req])).
Proof.
  intros Hac. eexists. split; [reflexivity|].
  unfold RedisContext_RunAsync, redisAsyncCommand.
  rewrite Hac. unfold bind, deref, emit, ret.
  destruct (length >? 0); cbv iota;
    match goal with
    | |- context [fst ?r =? REDIS_ERR] => destruct (fst r =? REDIS_ERR)
    end; reflexivity.
Qed.

(** The request [SubscribeAsync] builds on a channel that has pub/sub. *)
Lemma SubscribeAsync_returns this (sc : redisAsyncContext) (client_id : string)
    (pubsub_channel callback_index : Z) w :
  pubsub_channel <> TablePubsub_NO_PUBLISH ->
  subscribe_context_ this = Some sc ->
  exists req,
    req = mkAsyncRequest subscribe_context SubscribeRedisCallbackFn callback_index
            (if is_nil client_id then "SUBSCRIBE %d" else "SUBSCRIBE %d:%b")
            (if is_nil client_id then [VInt pubsub_channel]
             else [VInt pubsub_channel; VBytes client_id (UniqueID_size client_id)]) /\
    RedisContext_SubscribeAsync TablePubsub_NO_PUBLISH is_nil redisAsyncCommand_result
                                this client_id pubsub_channel callback_index w =
    Returns (if fst (redisAsyncCommand_result req) =? REDIS_ERR
             then RedisError (snd (redisAsyncCommand_result req)) else OK)
            (mkWorld (manager w) (trace w ++ [EvAsyncCommand req])).
Proof.
  intros Hch Hsc. eexists. split; [reflexivity|].
  unfold RedisContext_SubscribeAsync, redisAsyncCommand, RAY_CHECK.
  apply Z.eqb_neq in Hch. rewrite Hch, Hsc. cbn [negb].
  unfold bind, deref, emit, ret.
  change (c_str "SUBSCRIBE %d") with "SUBSCRIBE %d".
  change (c_str "SUBSCRIBE %d:%b") with "SUBSCRIBE %d:%b".
  destruct (is_nil client_id); cbv iota;
    match goal with
    | |- context [fst ?r =? REDIS_ERR] => destruct (fst r =? REDIS_ERR)
    end; reflexivity.
Qed.

(** X15.  When the first [k] blocking connection attempts fail and the
    next one succeeds, [k] being within the configured retries, [Connect]
    sleeps exactly [k] times, each time for the configured delay, makes
    [k + 1] attempts and goes on to the configuration command. *)
Theorem Connect_retries_then_proceeds (k : nat) this address port w :
  Z.of_nat k <= redis_db_connect_retries ->
  Z.of_nat k <= INT_MAX ->
  (forall i, (i < k)%nat -> connect_failed (redisConnect i) = true) ->
  connect_failed (redisConnect k) = false ->
  exists o w' rest,
    Connect this address port w = Some o /\
    final_world o = Some w' /\
    trace w' = trace w ++ EvConnect address port ::
               retries_trace address port redis_db_connect_wait_milliseconds k ++
               EvCommand "CONFIG SET notify-keyspace-events Kl" :: rest /\
    sleeps (trace w') =
      sleeps (trace w) ++ repeat ((redis_db_connect_wait_milliseconds * 1000) mod 2 ^ 32) k.
Proof.
  intros Hret Hmax Hfail Hok.
  rewrite (Connect_reaches_setup k this address port w Hret Hmax Hfail Hok).
  destruct (redisConnect k) as [c|]; [|discriminate Hok].
  match goal with
  | |- context [Connect_setup _ _ _ _ _ _ ?w1] =>
      destruct (Connect_setup_proceeds redisCommand redisAsyncConnect this address port c w1)
        as (w' & rest & Hfinal & Htrace & Hsleeps & _)
  end.
  eexists. exists w', rest. split; [reflexivity|]. split; [exact Hfinal|].
  cbn [trace] in Htrace. rewrite Htrace.
  repeat rewrite <- app_assoc. cbn [app]. split; [reflexivity|].
  rewrite sleeps_app. cbn [sleeps]. rewrite sleeps_app, sleeps_retry_events.
  cbn [sleeps]. rewrite Hsleeps. now rewrite app_nil_r.
Qed.

(** X16.  When every blocking connection attempt fails, [Connect] with
    [N] retries configured makes [N + 1] attempts with [N] sleeps between
    them and then terminates through the FATAL log; it never reaches the
    configuration command.  With no retries configured (or a negative
    number) the first failure is fatal at once. *)
Theorem Connect_exhausts_retries this address port w :
  redis_db_connect_retries <= INT_MAX ->
  (forall i, (i <= Z.to_nat redis_db_connect_retries)%nat ->
             connect_failed (redisConnect i) = true) ->
  Connect this address port w =
  Some (Fatal (mkWorld (manager w)
                 (trace w ++ EvConnect address port ::
                  retries_trace address port redis_db_connect_wait_milliseconds
                                (Z.to_nat redis_db_connect_retries) ++
                  [EvLog FATAL (exhausted_message address port
                                  (redisConnect (Z.to_nat redis_db_connect_retries)))]))).
Proof.
  intros Hmax Hfail. unfold RedisContext_Connect. cbn [emit].
  rewrite (Connect_loop_exhausted (Z.to_nat redis_db_connect_retries));
    try (unfold INT_MAX in *; lia).
  - cbn [manager trace]. rewrite <- app_assoc.
    destruct (Z.to_nat redis_db_connect_retries); reflexivity.
  - intros [|i] Hi; cbn [context_after]; apply Hfail; lia.
Qed.


(** X18.  When [Connect] returns OK, the object holds three connected
    contexts (none is null, none carries an error), and the callback
    registry is as it was before the call. *)
Theorem Connect_OK_connected this address port w ctx w' :
  Connect this address port w = Some (Returns (OK, ctx) w') ->
  connect_failed (context_ ctx) = false /\
  async_connect_failed (async_context_ ctx) = false /\
  async_connect_failed (subscribe_context_ ctx) = false /\
  manager w' = manager w.
Proof. apply Connect_OK_contexts. Qed.

(** X19.  When the command connection cannot be opened after a
    successful configuration, [Connect] terminates through the FATAL log
    and the subscribe connection is not attempted: there is no retry at
    this stage. *)
Theorem Connect_async_failure_fatal (k : nat) (c : redisContext) (reply : redisReply)
    this address port w :
  Z.of_nat k <= redis_db_connect_retries ->
  Z.of_nat k <= INT_MAX ->
  (forall i, (i < k)%nat -> connect_failed (redisConnect i) = true) ->
  redisConnect k = Some c ->
  err c = 0 ->
  redisCommand = Some reply ->
  reply_type reply <> REDIS_REPLY_ERROR ->
  async_connect_failed (redisAsyncConnect 0%nat) = true ->
  Connect this address port w =
  Some (Fatal (mkWorld (manager w)
                 (trace w ++ EvConnect address port ::
                  retries_trace address port redis_db_connect_wait_milliseconds k ++
                  [EvCommand "CONFIG SET notify-keyspace-events Kl";
                   EvAsyncConnect address port;
                   EvLog FATAL [LStr "Could not establish connection to redis ";
                                LStr address; LStr ":"; LInt port]]))).
Proof.
  intros Hret Hmax Hfail Hc Herr Hcmd Hty Hasync.
  rewrite (Connect_reaches_setup k this address port w Hret Hmax Hfail)
    by (rewrite Hc; cbn; now rewrite Herr).
  rewrite Hc. unfold Connect_setup, bind, deref, emit, ret, RAY_LOG. cbn [manager trace].
  rewrite Hcmd. apply Z.eqb_neq in Hty. rewrite Hty, Hasync.
  cbn [manager trace]. repeat rewrite <- app_assoc. reflexivity.
Qed.

(** X20.  [RunAsync] on a connected context makes one call of
    [redisAsyncCommand] and no more, also when the call fails: it returns a
    Redis error with the error text of the context exactly when hiredis
    reports [REDIS_ERR], and OK otherwise.  It does not touch the callback
    registry. *)
Theorem RunAsync_status this (ac : redisAsyncContext) (command id data : string)
    (length pubsub_channel callback_index : Z) w :
  async_context_ this = Some ac ->
  exists req status w',
    RedisContext_RunAsync redisAsyncCommand_result this command id data length
                          pubsub_channel callback_index w = Returns status w' /\
    requests (trace w') = requests (trace w) ++ [req] /\
    manager w' = manager w /\
    (status = OK <-> fst (redisAsyncCommand_result req) <> REDIS_ERR) /\
    (status = OK \/ status = RedisError (snd (redisAsyncCommand_result req))).
Proof.
  intros Hac.
  destruct (RunAsync_returns this ac command id data length pubsub_channel
              callback_index w Hac) as (req & _ & ->).
  exists req. eexists. eexists. split; [reflexivity|]. cbn [trace manager].
  rewrite requests_app. cbn [requests].
  split; [reflexivity|]. split; [reflexivity|].
  destruct (fst (redisAsyncCommand_result req) =? REDIS_ERR) eqn:E.
  - apply Z.eqb_eq in E. split; [|now right]. split; [discriminate | congruence].
  - apply Z.eqb_neq in E. split; [|now left]. split; [now intros _ | reflexivity].
Qed.

(** X21.  For a command name without NUL bytes, the format [RunAsync]
    passes on is the command name followed by [ %d %b %b] when the payload
    length is above zero and by [ %d %b] otherwise. *)
Theorem RunAsync_format this (ac : redisAsyncContext) (command id data : string)
    (length pubsub_channel callback_index : Z) w :
  async_context_ this = Some ac ->
  no_nul command = true ->
  ends_in (fun w' =>
             map req_format (requests (trace w')) =
             map req_format (requests (trace w)) ++
             [command +:+ (if length >? 0 then " %d %b %b" else " %d %b")])
          (RedisContext_RunAsync redisAsyncCommand_result this command id data length
                                 pubsub_channel callback_index w).
Proof.
  intros Hac Hnul.
  destruct (RunAsync_returns this ac command id data length pubsub_channel
              callback_index w Hac) as (req & -> & ->).
  unfold ends_in. cbn [final_world trace].
  rewrite requests_app, map_app. cbn [requests map req_format].
  rewrite c_str_no_nul; [reflexivity|].
  apply no_nul_append; [exact Hnul|]. now destruct (length >? 0).
Qed.


(** X23.  On a channel that has pub/sub, [SubscribeAsync] on a connected
    context makes one call of [redisAsyncCommand] on the subscribe
    connection, with the subscribe callback and the callback index as
    private data: [SUBSCRIBE %d] with the channel for a nil client id,
    [SUBSCRIBE %d:%b] with the channel and the bytes of the client id
    otherwise.  It returns a Redis error exactly when hiredis reports
    [REDIS_ERR], and leaves the callback registry alone. *)
Theorem SubscribeAsync_request this (sc : redisAsyncContext) (client_id : string)
    (pubsub_channel callback_index : Z) w :
  pubsub_channel <> TablePubsub_NO_PUBLISH ->
  subscribe_context_ this = Some sc ->
  exists req,
    req = mkAsyncRequest subscribe_context SubscribeRedisCallbackFn callback_index
            (if is_nil client_id then "SUBSCRIBE %d" else "SUBSCRIBE %d:%b")
            (if is_nil client_id then [VInt pubsub_channel]
             else [VInt pubsub_channel; VBytes client_id (UniqueID_size client_id)]) /\
    RedisContext_SubscribeAsync TablePubsub_NO_PUBLISH is_nil redisAsyncCommand_result
                                this client_id pubsub_channel callback_index w =
    Returns (if fst (redisAsyncCommand_result req) =? REDIS_ERR
             then RedisError (snd (redisAsyncCommand_result req)) else OK)
            (mkWorld (manager w) (trace w ++ [EvAsyncCommand req])).
Proof. apply SubscribeAsync_returns. Qed.

(** X25.  After [Connect] has returned OK, [RunAsync] on the resulting
    object, and [SubscribeAsync] on a channel that has pub/sub, both
    return: each hands one request to hiredis and neither runs into a null
    context. *)
Theorem Connect_then_dispatch this address port w ctx w'
    (command id data client_id : string) (length pubsub_channel callback_index : Z)
    (w1 : World RedisCallback) :
  Connect this address port w = Some (Returns (OK, ctx) w') ->
  pubsub_channel <> TablePubsub_NO_PUBLISH ->
  (exists status req,
     RedisContext_RunAsync redisAsyncCommand_result ctx command id data length
                           pubsub_channel callback_index w1 =
     Returns status (mkWorld (manager w1) (trace w1 ++ [EvAsyncCommand req]))) /\
  (exists status req,
     RedisContext_SubscribeAsync TablePubsub_NO_PUBLISH is_nil redisAsyncCommand_result
                                 ctx client_id pubsub_channel callback_index w1 =
     Returns status (mkWorld (manager w1) (trace w1 ++ [EvAsyncCommand req]))).
Proof.
  intros HOK Hch.
  destruct (Connect_OK_contexts this address port w ctx w' HOK) as (_ & Ha & Hs & _).
  destruct (async_context_ ctx) as [ac|] eqn:Eac; [|discriminate Ha].
  destruct (subscribe_context_ ctx) as [sc|] eqn:Esc; [|discriminate Hs].
  split.
  - destruct (RunAsync_returns ctx ac command id data length pubsub_channel
                callback_index w1 Eac) as (req & _ & ->). eauto.
  - destruct (SubscribeAsync_returns ctx sc client_id pubsub_channel callback_index w1
                Hch Esc) as (req & _ & ->). eauto.
Qed.

(** X24.  [AttachToEventLoop] returns OK exactly when both connections
    attach; when the command connection does not attach, the subscribe
    connection is not tried at all; and every failure is reported with the
    same Redis error. *)
Theorem AttachToEventLoop_short_circuit
    (redisAeAttach : Connection -> option redisAsyncContext -> Z) this :
  (fst (RedisContext_AttachToEventLoop redisAeAttach this) = OK <->
   redisAeAttach async_context (async_context_ this) = REDIS_OK /\
   redisAeAttach subscribe_context (subscribe_context_ this) = REDIS_OK) /\
  (In subscribe_context (snd (RedisContext_AttachToEventLoop redisAeAttach this)) <->
   redisAeAttach async_context (async_context_ this) = REDIS_OK) /\
  (fst (RedisContext_AttachToEventLoop redisAeAttach this) = OK \/
   fst (RedisContext_AttachToEventLoop redisAeAttach this) =
     RedisError "could not attach redis event loop").
Proof.
  unfold RedisContext_AttachToEventLoop.
  destruct (redisAeAttach async_context (async_context_ this) =? REDIS_OK) eqn:Ea;
    [destruct (redisAeAttach subscribe_context (subscribe_context_ this) =? REDIS_OK) eqn:Es|];
    cbn [negb fst snd];
    rewrite ?Z.eqb_eq, ?Z.eqb_neq in *;
    (split; [|split]); try (now right); try (now left);
    split; intros H; try discriminate H; try tauto; cbn in *;
    intuition (try discriminate; try congruence).
Qed.

End More_context_facts.

(** ** The further theorems at concrete inputs *)

Lemma keys_below_fresh_world : keys_below (manager fresh_world).
Proof. apply map_Forall_empty. Qed.

Lemma keys_below_one_callback_world : keys_below (manager one_callback_world).
Proof. apply map_Forall_singleton. reflexivity. Qed.

(** Registering callback 9 beside callback 7. *)
Lemma add_then_get_witness :
  exists w',
    RedisCallbackManager_add 9%nat one_callback_world =
      Returns (num_callbacks (manager one_callback_world)) w' /\
    RedisCallbackManager_get (num_callbacks (manager one_callback_world)) w' =
      Returns 9%nat w' /\
    (forall j, j <> num_callbacks (manager one_callback_world) ->
               callbacks_ (manager w') !! j = callbacks_ (manager one_callback_world) !! j) /\
    trace w' = trace one_callback_world.
Proof.
  apply (add_then_get 9%nat one_callback_world);
    [exact keys_below_one_callback_world | reflexivity].
Defined.

(** The invariant on the registry with one callback. *)
Lemma keys_below_kept_witness :
  ends_in (fun w' => keys_below (manager w'))
          (RedisCallbackManager_add 9%nat one_callback_world) /\
  ends_in (fun w' => keys_below (manager w'))
          (RedisCallbackManager_remove 0 one_callback_world) /\
  ends_in (fun w' => keys_below (manager w'))
          (GlobalRedisCallback (Some (ReplyString "value")) 0 one_callback_world) /\
  ends_in (fun w' => keys_below (manager w'))
          (SubscribeRedisCallback (Some (ReplyString "value")) 0 one_callback_world).
Proof.
  apply (keys_below_kept 9%nat 0 (Some (ReplyString "value")) one_callback_world).
  exact keys_below_one_callback_world.
Defined.

(** Two registrations in a fresh registry get the indices 0 and 1. *)
Lemma add_twice_distinct_witness :
  exists w1 w2,
    RedisCallbackManager_add 7%nat fresh_world =
      Returns (num_callbacks (manager fresh_world)) w1 /\
    RedisCallbackManager_add 9%nat w1 =
      Returns (num_callbacks (manager fresh_world) + 1) w2 /\
    RedisCallbackManager_get (num_callbacks (manager fresh_world)) w2 = Returns 7%nat w2 /\
    RedisCallbackManager_get (num_callbacks (manager fresh_world) + 1) w2 = Returns 9%nat w2.
Proof.
  apply (add_twice_distinct 7%nat 9%nat fresh_world);
    [exact keys_below_fresh_world | reflexivity].
Defined.

(** Removing index 5, which was never handed out. *)
Lemma remove_absent_noop_witness :
  RedisCallbackManager_remove 5 one_callback_world = Returns tt one_callback_world.
Proof. apply (remove_absent_noop 5 one_callback_world). reflexivity. Defined.

(** Registering and retiring at once. *)
Lemma add_then_remove_witness :
  exists w1,
    RedisCallbackManager_add 9%nat one_callback_world =
      Returns (num_callbacks (manager one_callback_world)) w1 /\
    RedisCallbackManager_remove (num_callbacks (manager one_callback_world)) w1 =
      Returns tt (mkWorld (mkManager (num_callbacks (manager one_callback_world) + 1)
                                     (callbacks_ (manager one_callback_world)))
                          (trace one_callback_world)).
Proof.
  apply (add_then_remove 9%nat one_callback_world);
    [exact keys_below_one_callback_world | reflexivity].
Defined.

(** A lookup and its reply, and the same reply delivered once more. *)
Lemma add_reply_replay_witness :
  exists w1 w2,
    RedisCallbackManager_add 9%nat one_callback_world =
      Returns (num_callbacks (manager one_callback_world)) w1 /\
    GlobalRedisCallback (Some (ReplyString "value"))
                        (num_callbacks (manager one_callback_world)) w1 = Returns tt w2 /\
    trace w2 = trace one_callback_world ++ [EvInvoke 9%nat "value"] /\
    callbacks_ (manager w2) = callbacks_ (manager one_callback_world) /\
    GlobalRedisCallback (Some (ReplyString "again"))
                        (num_callbacks (manager one_callback_world)) w2 =
      Undefined NullDereference.
Proof.
  apply (add_reply_replay 9%nat "value" "again" one_callback_world);
    [exact keys_below_one_callback_world | reflexivity].
Defined.

(** Both indices are registered: the reply for index 1 is delivered,
    index 1 is retired, and the entry of index 0 is as before. *)
Lemma GlobalRedisCallback_frame_witness :
  GlobalRedisCallback (Some (ReplyString "value")) 1 two_callback_world =
    Returns tt (mkWorld (mkManager 2 (delete 1 (<[1 := 9%nat]> {[0 := 7%nat]})))
                        [EvInvoke 9%nat "value"]) /\
  ends_in (fun w' =>
             callbacks_ (manager w') !! 0 = callbacks_ (manager two_callback_world) !! 0 /\
             num_callbacks (manager w') = num_callbacks (manager two_callback_world))
          (GlobalRedisCallback (Some (ReplyString "value")) 1 two_callback_world).
Proof.
  split; [reflexivity|].
  apply (GlobalRedisCallback_frame (Some (ReplyString "value")) 1 0 two_callback_world).
  discriminate.
Defined.

(** An Integer reply for the registered index 0. *)
Lemma GlobalRedisCallback_other_type_fatal_witness :
  GlobalRedisCallback (Some (ReplyInteger 3)) 0 one_callback_world =
    Fatal (mkWorld (manager one_callback_world)
             (trace one_callback_world ++
              [EvLog FATAL [LStr "Fatal redis error of type ";
                            LInt (reply_type (ReplyInteger 3));
                            LStr " and with string ";
                            LCStr (reply_str (ReplyInteger 3))]])).
Proof.
  apply (GlobalRedisCallback_other_type_fatal (ReplyInteger 3) 0 one_callback_world).
  reflexivity.
Defined.

(** A Status reply for index 5, which is not registered. *)
Lemma GlobalRedisCallback_unregistered_witness :
  exists why,
    GlobalRedisCallback (Some (ReplyStatus "OK")) 5 one_callback_world = Undefined why.
Proof.
  apply (GlobalRedisCallback_unregistered (ReplyStatus "OK") 5 one_callback_world);
    reflexivity.
Defined.

(** A published message on channel 3. *)
Lemma SubscribeRedisCallback_message_witness :
  SubscribeRedisCallback
    (Some (ReplyArray (ReplyString "message" :: [ReplyString "3"; ReplyString "payload"])))
    0 one_callback_world =
    Returns tt
      (mkWorld (manager one_callback_world)
         (trace one_callback_world ++
          [EvInvoke 7%nat
             (reply_bytes (List.last (ReplyString "message" ::
                                      [ReplyString "3"; ReplyString "payload"])
                                     (ReplyString "message")))])).
Proof.
  apply (SubscribeRedisCallback_message (ReplyString "message")
           [ReplyString "3"; ReplyString "payload"] "message" 0 7%nat one_callback_world);
    [reflexivity | reflexivity | discriminate | reflexivity].
Defined.

(** The acknowledgement of an unsubscription. *)
Lemma SubscribeRedisCallback_unknown_type_fatal_witness :
  SubscribeRedisCallback
    (Some (ReplyArray (ReplyString "unsubscribe" :: [ReplyString "3"; ReplyInteger 0])))
    0 one_callback_world =
    Fatal (mkWorld (manager one_callback_world)
             (trace one_callback_world ++
              [EvLog FATAL [LStr "Fatal redis error during subscribe";
                            LStr (c_str "unsubscribe")]])).
Proof.
  apply (SubscribeRedisCallback_unknown_type_fatal (ReplyString "unsubscribe")
           [ReplyString "3"; ReplyInteger 0] "unsubscribe" 0 one_callback_world);
    [reflexivity | discriminate | discriminate].
Defined.

(** A Status reply on the subscribe connection. *)
Lemma SubscribeRedisCallback_other_type_fatal_witness :
  SubscribeRedisCallback (Some (ReplyStatus "OK")) 0 one_callback_world =
    Fatal (mkWorld (manager one_callback_world)
             (trace one_callback_world ++
              [EvLog FATAL [LStr "Fatal redis error of type ";
                            LInt (reply_type (ReplyStatus "OK"));
                            LStr " and with string ";
                            LCStr (reply_str (ReplyStatus "OK"))]])).
Proof.
  apply (SubscribeRedisCallback_other_type_fatal (ReplyStatus "OK") 0 one_callback_world);
    discriminate.
Defined.

(** An acknowledgement followed by two published messages. *)
Lemma SubscribeRedisCallback_each_delivers_witness :
  SubscribeRedisCallback_each
    [ReplyArray [ReplyString "subscribe"; ReplyString "3"; ReplyInteger 1];
     ReplyArray [ReplyString "message"; ReplyString "3"; ReplyString "first"];
     ReplyArray [ReplyString "message"; ReplyString "3"; ReplyString "second"]]
    0 one_callback_world =
    Returns tt (mkWorld (manager one_callback_world)
                        (trace one_callback_world ++
                         map (EvInvoke 7%nat) [EmptyString; "first"; "second"])).
Proof.
  apply (SubscribeRedisCallback_each_delivers
           [ReplyArray [ReplyString "subscribe"; ReplyString "3"; ReplyInteger 1];
            ReplyArray [ReplyString "message"; ReplyString "3"; ReplyString "first"];
            ReplyArray [ReplyString "message"; ReplyString "3"; ReplyString "second"]]
           [EmptyString; "first"; "second"] 0 7%nat one_callback_world);
    [repeat constructor | reflexivity].
Defined.

(** Two refused attempts, then a connection. *)
Lemma Connect_retries_then_proceeds_witness :
  exists o w' rest,
    RedisContext_Connect 3 100 third_attempt_connects (Some (ReplyStatus "OK"))
                         async_connects (mkRedisContextObj None None None)
                         "127.0.0.1" 6379 fresh_world = Some o /\
    final_world o = Some w' /\
    trace w' = trace fresh_world ++ EvConnect "127.0.0.1" 6379 ::
               retry_events "127.0.0.1" 6379 100 2 ++
               EvCommand "CONFIG SET notify-keyspace-events Kl" :: rest /\
    sleeps (trace w') = sleeps (trace fresh_world) ++ repeat ((100 * 1000) mod 2 ^ 32) 2.
Proof.
  apply (Connect_retries_then_proceeds 3 100 third_attempt_connects
           (Some (ReplyStatus "OK")) async_connects 2 (mkRedisContextObj None None None)
           "127.0.0.1" 6379 fresh_world);
    [unfold INT_MAX; lia | unfold INT_MAX; lia
     | intros [|[|i]] Hi; [reflexivity | reflexivity | lia] | reflexivity].
Defined.

(** Two retries against a server that refuses every connection. *)
Lemma Connect_exhausts_retries_witness :
  RedisContext_Connect 2 100 never_connects (Some (ReplyStatus "OK")) async_connects
                       (mkRedisContextObj None None None) "127.0.0.1" 6379 fresh_world =
  Some (Fatal (mkWorld (manager fresh_world)
                 (trace fresh_world ++ EvConnect "127.0.0.1" 6379 ::
                  retry_events "127.0.0.1" 6379 100 (Z.to_nat 2) ++
                  [EvLog FATAL (exhausted_message "127.0.0.1" 6379
                                  (never_connects (Z.to_nat 2)))]))).
Proof.
  apply (Connect_exhausts_retries 2 100 never_connects (Some (ReplyStatus "OK"))
           async_connects (mkRedisContextObj None None None) "127.0.0.1" 6379 fresh_world);
    [unfold INT_MAX; lia | intros i _; reflexivity].
Defined.


(** A complete, successful [Connect]. *)
Lemma Connect_OK_connected_witness :
  connect_failed (context_ connected_context) = false /\
  async_connect_failed (async_context_ connected_context) = false /\
  async_connect_failed (subscribe_context_ connected_context) = false /\
  manager (mkWorld (manager fresh_world)
                   [EvConnect "127.0.0.1" 6379;
                    EvCommand "CONFIG SET notify-keyspace-events Kl";
                    EvAsyncConnect "127.0.0.1" 6379;
                    EvAsyncConnect "127.0.0.1" 6379]) = manager fresh_world.
Proof.
  apply (Connect_OK_connected 3 100 always_connects (Some (ReplyStatus "OK"))
           async_connects (mkRedisContextObj None None None) "127.0.0.1" 6379 fresh_world
           connected_context
           (mkWorld (manager fresh_world)
                    [EvConnect "127.0.0.1" 6379;
                     EvCommand "CONFIG SET notify-keyspace-events Kl";
                     EvAsyncConnect "127.0.0.1" 6379;
                     EvAsyncConnect "127.0.0.1" 6379])).
  reflexivity.
Defined.

(** The command connection is refused after the configuration. *)
Lemma Connect_async_failure_fatal_witness :
  RedisContext_Connect 3 100 always_connects (Some (ReplyStatus "OK")) async_refused
                       (mkRedisContextObj None None None) "127.0.0.1" 6379 fresh_world =
  Some (Fatal (mkWorld (manager fresh_world)
                 (trace fresh_world ++ EvConnect "127.0.0.1" 6379 ::
                  retry_events "127.0.0.1" 6379 100 0 ++
                  [EvCommand "CONFIG SET notify-keyspace-events Kl";
                   EvAsyncConnect "127.0.0.1" 6379;
                   EvLog FATAL [LStr "Could not establish connection to redis ";
                                LStr "127.0.0.1"; LStr ":"; LInt 6379]]))).
Proof.
  apply (Connect_async_failure_fatal 3 100 always_connects (Some (ReplyStatus "OK"))
           async_refused 0 (mkRedisContext 0 EmptyString) (ReplyStatus "OK")
           (mkRedisContextObj None None None) "127.0.0.1" 6379 fresh_world);
    [lia | unfold INT_MAX; lia | intros i Hi; lia | reflexivity | reflexivity
     | reflexivity | discriminate | reflexivity].
Defined.

(** A request that hiredis refuses. *)
Lemma RunAsync_status_witness :
  exists req status w',
    RedisContext_RunAsync refuse_all connected_context "TABLE_ADD" "0123456789abcdef"
                          "hello" 5 5 7 fresh_world = Returns status w' /\
    requests (trace w') = requests (trace fresh_world) ++ [req] /\
    manager w' = manager fresh_world /\
    (status = OK <-> fst (refuse_all req) <> REDIS_ERR) /\
    (status = OK \/ status = RedisError (snd (refuse_all req))).
Proof.
  apply (RunAsync_status refuse_all connected_context (mkRedisAsyncContext 0 EmptyString)
           "TABLE_ADD" "0123456789abcdef" "hello" 5 5 7 fresh_world).
  reflexivity.
Defined.

(** The format of a [TABLE_ADD] with a payload. *)
Lemma RunAsync_format_witness :
  ends_in (fun w' =>
             map req_format (requests (trace w')) =
             map req_format (requests (trace fresh_world)) ++
             ["TABLE_ADD" +:+ (if 5 >? 0 then " %d %b %b" else " %d %b")])
          (RedisContext_RunAsync accept_all connected_context "TABLE_ADD"
                                 "0123456789abcdef" "hello" 5 5 7 fresh_world).
Proof.
  apply (RunAsync_format accept_all connected_context (mkRedisAsyncContext 0 EmptyString)
           "TABLE_ADD" "0123456789abcdef" "hello" 5 5 7 fresh_world); reflexivity.
Defined.


(** A subscription for one client on channel 3, channel 0 being the one
    without pub/sub. *)
Lemma SubscribeAsync_request_witness :
  exists req,
    req = mkAsyncRequest subscribe_context SubscribeRedisCallbackFn 10
            (if all_ff "client" then "SUBSCRIBE %d" else "SUBSCRIBE %d:%b")
            (if all_ff "client" then [VInt 3]
             else [VInt 3; VBytes "client" (UniqueID_size "client")]) /\
    RedisContext_SubscribeAsync 0 all_ff accept_all connected_context "client" 3 10
                                fresh_world =
    Returns (if fst (accept_all req) =? REDIS_ERR
             then RedisError (snd (accept_all req)) else OK)
            (mkWorld (manager fresh_world) (trace fresh_world ++ [EvAsyncCommand req])).
Proof.
  apply (SubscribeAsync_request 0 all_ff accept_all connected_context
           (mkRedisAsyncContext 0 EmptyString) "client" 3 10 fresh_world);
    [discriminate | reflexivity].
Defined.

(** Dispatching on the object a successful [Connect] has filled. *)
Lemma Connect_then_dispatch_witness :
  (exists status req,
     RedisContext_RunAsync accept_all connected_context "TABLE_ADD" "0123456789abcdef"
                           "hello" 5 3 7 one_callback_world =
     Returns status (mkWorld (manager one_callback_world)
                             (trace one_callback_world ++ [EvAsyncCommand req]))) /\
  (exists status req,
     RedisContext_SubscribeAsync 0 all_ff accept_all connected_context "client" 3 7
                                 one_callback_world =
     Returns status (mkWorld (manager one_callback_world)
                             (trace one_callback_world ++ [EvAsyncCommand req]))).
Proof.
  apply (Connect_then_dispatch 3 100 0 all_ff always_connects (Some (ReplyStatus "OK"))
           async_connects accept_all (mkRedisContextObj None None None) "127.0.0.1" 6379
           fresh_world connected_context
           (mkWorld (manager fresh_world)
                    [EvConnect "127.0.0.1" 6379;
                     EvCommand "CONFIG SET notify-keyspace-events Kl";
                     EvAsyncConnect "127.0.0.1" 6379;
                     EvAsyncConnect "127.0.0.1" 6379])
           "TABLE_ADD" "0123456789abcdef" "hello" "client" 5 3 7 one_callback_world);
    [reflexivity | discriminate].
Defined.
